(** * GaussianCopulaSynthesizer: the wrapper around the copulas library

    A shallow embedding of [sdv/single_table/copulas.py].  The numerical
    routines of the wrapped [copulas] library are parameters of the
    development; everything the wrapper itself does (validating the
    configuration, assigning a distribution family to every column,
    replacing the model, copying the learned parameters on read, warning
    about transformers) is modelled from the Python source. *)

From Stdlib Require Import ZArith Ascii String List Bool Lia.
From stdpp Require Import base option list gmap strings pretty.

Open Scope string_scope.
Open Scope list_scope.

(** ** Python values *)

(** Column labels and dictionary keys: strings, or integers (a pandas frame
    may label its columns with integers). *)
Inductive label : Type :=
| LStr (s : string)
| LInt (z : Z).

#[global] Instance label_eq_dec : EqDecision label.
Proof. solve_decision. Defined.

(** Immutable Python objects.  [PyFloat] holds the IEEE-754 bit pattern: the
    wrapper only moves floats around.  [PyOther cls truth] is an instance of
    any other class (a list, a tuple, a [copulas.univariate] instance, ...)
    together with the truth value Python gives it. *)
Inductive pyobj : Type :=
| PyNone
| PyBool (b : bool)
| PyInt (z : Z)
| PyFloat (bits : Z)
| PyStr (s : string)
| PyOther (cls : string) (truth : bool).

(** The value passed for [numerical_distributions]: a [dict], or anything
    else. *)
Inductive pyarg : Type :=
| ADict (items : list (label * pyobj))
| AObj (o : pyobj).

(** [bool(o)] *)
Definition truthy (o : pyobj) : bool :=
  match o with
  | PyNone => false
  | PyBool b => b
  | PyInt z => negb (z =? 0)%Z
  | PyFloat bits => negb (Z.land bits (2 ^ 63 - 1) =? 0)%Z
  | PyStr s => negb (String.eqb s "")
  | PyOther _ truth => truth
  end.

Definition arg_truthy (a : pyarg) : bool :=
  match a with
  | ADict items => negb (Nat.eqb (length items) 0)
  | AObj o => truthy o
  end.

(** [isinstance(a, dict)] and [isinstance(o, str)] *)
Definition isinstance_dict (a : pyarg) : bool :=
  match a with ADict _ => true | AObj _ => false end.

Definition isinstance_str (o : pyobj) : bool :=
  match o with PyStr _ => true | _ => false end.

(** [o == s] for a string literal [s] *)
Definition eq_str (o : pyobj) (s : string) : bool :=
  match o with PyStr s' => String.eqb s' s | _ => false end.

(** ** Dictionaries in insertion order *)

Section Dict.
Context {K V : Type} `{EqDecision K}.

(** [d.get(k)] *)
Fixpoint dict_get (k : K) (d : list (K * V)) : option V :=
  match d with
  | [] => None
  | (k', v) :: rest => if decide (k' = k) then Some v else dict_get k rest
  end.

(** [k in d] *)
Definition dict_contains (k : K) (d : list (K * V)) : bool :=
  match dict_get k d with Some _ => true | None => false end.

(** [d.get(k, dflt)] *)
Definition dict_get_default (k : K) (dflt : V) (d : list (K * V)) : V :=
  match dict_get k d with Some v => v | None => dflt end.

(** [d[k] = v]: an existing key keeps its place, a new key goes last. *)
Fixpoint dict_set (k : K) (v : V) (d : list (K * V)) : list (K * V) :=
  match d with
  | [] => [(k, v)]
  | (k', v') :: rest =>
      if decide (k' = k) then (k, v) :: rest else (k', v') :: dict_set k v rest
  end.

Definition dict_keys (d : list (K * V)) : list K := map fst d.
End Dict.

(** ** Exceptions and results *)

Inductive message : Type :=
| Text (s : string)
| InvalidSpecification (distribution : pyobj).
    (* f"Invalid distribution specification '{distribution}'." *)

Inductive exn : Type :=
| TypeError (msg : string)
| ValueError (msg : message)
| AttributeError (msg : string)
| KeyError (key : label)
| NotFittedError
| SystemError (msg : string)
| LibraryError (cls msg : string).

Inductive result (A : Type) : Type :=
| Ok (a : A)
| Raise (e : exn).
Arguments Ok {A} a.
Arguments Raise {A} e.

Definition bind {A B} (r : result A) (k : A -> result B) : result B :=
  match r with Ok a => k a | Raise e => Raise e end.

Notation "'do' x <- r ; k" := (bind r (fun x => k))
  (at level 10, x name, r at level 100, k at level 200).

Definition raised {A} (r : result A) : bool :=
  match r with Ok _ => false | Raise _ => true end.

(** ** Configuration *)

(** The classes of [copulas.univariate] the wrapper can name. *)
Inductive Univariate : Type :=
| GaussianUnivariate
| BetaUnivariate
| TruncatedGaussian
| GammaUnivariate
| UniformUnivariate
| GaussianKDE.

Definition _DISTRIBUTIONS : list (string * Univariate) :=
  [ ("norm", GaussianUnivariate);
    ("beta", BetaUnivariate);
    ("truncnorm", TruncatedGaussian);
    ("gamma", GammaUnivariate);
    ("uniform", UniformUnivariate);
    ("gaussian_kde", GaussianKDE) ].

Definition _validate_distribution (distribution : pyobj) : result Univariate :=
  match distribution with
  | PyStr name =>
      match dict_get name _DISTRIBUTIONS with
      | Some cls => Ok cls
      | None => Raise (ValueError (InvalidSpecification distribution))
      end
  | _ => Raise (ValueError (InvalidSpecification distribution))
  end.


(** ** The object store

    Mutable Python objects (lists and dictionaries) live in a store and are
    referred to by their location, so that two references to one object see
    each other's updates.  A new object takes the next free location. *)

Abbreviation loc := nat.

Inductive pval : Type :=
| VAtom (a : pyobj)
| VRef (l : loc).

Inductive obj : Type :=
| OList (items : list pval)
| ODict (items : list (label * pval)).

Abbreviation heap := (list obj).

Definition obj_children (o : obj) : list pval :=
  match o with
  | OList items => items
  | ODict items => map snd items
  end.

(** The object with the same shape and keys and new children. *)
Definition obj_with_children (o : obj) (vs : list pval) : obj :=
  match o with
  | OList _ => OList vs
  | ODict items => ODict (zip (map fst items) vs)
  end.

(** [[]] or [{}], according to the class of [o] *)
Definition obj_empty (o : obj) : obj :=
  match o with
  | OList _ => OList []
  | ODict _ => ODict []
  end.

Definition obj_map (f : pval -> pval) (o : obj) : obj :=
  match o with
  | OList items => OList (map f items)
  | ODict items => ODict (map (fun kv => (kv.1, f kv.2)) items)
  end.

(** *** [copy.deepcopy]

    The copy of a list or dictionary is entered in the memo before its
    children are copied, so shared and cyclic structures are copied once.
    Atoms are returned as they are. *)

Abbreviation copier := (heap * gmap loc loc)%type.

Section CopyList.
Variable rec : pval -> copier -> option (pval * copier).

Fixpoint copy_list (vs : list pval) (c : copier) : option (list pval * copier) :=
  match vs with
  | [] => Some ([], c)
  | v :: rest =>
      match rec v c with
      | None => None
      | Some (v', c1) =>
          match copy_list rest c1 with
          | None => None
          | Some (vs', c2) => Some (v' :: vs', c2)
          end
      end
  end.
End CopyList.

Fixpoint deepcopy_fuel (fuel : nat) (v : pval) (c : copier) : option (pval * copier) :=
  match v with
  | VAtom _ => Some (v, c)
  | VRef l =>
      match c.2 !! l with
      | Some l' => Some (VRef l', c)
      | None =>
          match fuel with
          | O => None
          | S fuel' =>
              match c.1 !! l with
              | None => None
              | Some o =>
                  let l' := length c.1 in
                  let c1 := (c.1 ++ [obj_empty o], <[l := l']> c.2) in
                  match copy_list (deepcopy_fuel fuel') (obj_children o) c1 with
                  | None => None
                  | Some (vs', c2) =>
                      Some (VRef l', (<[l' := obj_with_children o vs']> c2.1, c2.2))
                  end
              end
          end
      end
  end.

(** One call of [deepcopy]: a fresh memo, and as much fuel as there are
    objects to visit. *)
Definition deepcopy (h : heap) (v : pval) : option (pval * heap) :=
  match deepcopy_fuel (length h) v (h, ∅) with
  | Some (v', c) => Some (v', c.1)
  | None => None
  end.

(** The structure behind a value, unfolded to a given depth: what [==]
    compares. *)
#[warnings="-register-all"]
Inductive tree : Type :=
| TAtom (a : pyobj)
| TList (items : list tree)
| TDict (items : list (label * tree))
| TCut.

Definition obj_tree (f : pval -> tree) (o : obj) : tree :=
  match o with
  | OList items => TList (map f items)
  | ODict items => TDict (map (fun kv => (kv.1, f kv.2)) items)
  end.

Fixpoint unfold (n : nat) (h : heap) (v : pval) : tree :=
  match n with
  | O => TCut
  | S n' =>
      match v with
      | VAtom a => TAtom a
      | VRef l =>
          match h !! l with
          | Some o => obj_tree (unfold n' h) o
          | None => TCut
          end
      end
  end.

(** [iter(v)], as [zip] calls it *)
Definition py_iter (h : heap) (v : pval) : result (list pval) :=
  match v with
  | VRef l =>
      match h !! l with
      | Some (OList items) => Ok items
      | Some (ODict items) =>
          Ok (map (fun kv => match kv.1 with
                             | LStr s => VAtom (PyStr s)
                             | LInt z => VAtom (PyInt z)
                             end) items)
      | None => Raise (SystemError "dangling reference")
      end
  | VAtom (PyStr s) =>
      Ok (map (fun c => VAtom (PyStr (String c ""))) (list_ascii_of_string s))
  | VAtom _ => Raise (TypeError "object is not iterable")
  end.

(** [h[l][k] = v] for a dictionary at [l] *)
Definition store_dict_set (l : loc) (k : label) (v : pval) (h : heap) : heap :=
  match h !! l with
  | Some (ODict items) => <[l := ODict (dict_set k v items)]> h
  | _ => h
  end.

(** ** Strings *)

(** [s.replace(old, new)] for a non-empty [old]: the occurrences of [old] are
    found from left to right and do not overlap.  [skip] counts the
    characters of the occurrence in progress that are still to be dropped. *)
Fixpoint replace_from (old new : string) (skip : nat) (s : string) : string :=
  match s with
  | EmptyString => EmptyString
  | String c rest =>
      match skip with
      | S skip' => replace_from old new skip' rest
      | O =>
          if String.prefix old s
          then String.append new (replace_from old new (String.length old - 1) rest)
          else String c (replace_from old new 0 rest)
      end
  end.

Definition str_replace (old new s : string) : string := replace_from old new 0 s.

(** [str(column)] *)
Definition label_str (column : label) : string :=
  match column with
  | LStr s => s
  | LInt z => pretty z
  end.

(** ** The wrapped library

    [copulas.multivariate.GaussianMultivariate] is outside the repository.
    Its object keeps the [distribution] argument it was built with and, once
    fitted, the columns and the per-column parameter structures, which live
    in the store; [to_dict] hands out the model's own parameter objects (the
    least favourable case for a caller that must not alias them).  The
    numerical work is a parameter. *)

Record DataFrame : Type := {
  columns : list label;
  rows : list (list pyobj);
}.

Record GaussianMultivariate : Type := {
  distribution : list (label * Univariate);
  fitted : bool;
  gm_columns : list label;
  gm_univariates : pval;
}.

Definition GaussianMultivariate_new (distribution : list (label * Univariate))
  : GaussianMultivariate :=
  {| distribution := distribution; fitted := false;
     gm_columns := []; gm_univariates := VAtom PyNone |}.

Definition GaussianMultivariate_to_dict (m : GaussianMultivariate)
  : result (list label * pval) :=
  if fitted m then Ok (gm_columns m, gm_univariates m) else Raise NotFittedError.

Section Library.
(** Fitting the marginals and the correlation: an error, or the columns
    and the parameter structures, allocated in the store. *)
Variable fit_numerics :
  list (label * Univariate) -> DataFrame -> heap ->
  exn + (list label * pval * heap).

(** Drawing rows from a fitted model. *)
Variable sample_numerics :
  GaussianMultivariate -> heap -> Z -> option (list (label * pyobj)) ->
  result DataFrame.

Definition GaussianMultivariate_fit (m : GaussianMultivariate) (X : DataFrame)
    (h : heap) : GaussianMultivariate * heap * result unit :=
  match fit_numerics (distribution m) X h with
  | inl e => (m, h, Raise e)
  | inr (cols, univariates, h') =>
      ({| distribution := distribution m; fitted := true;
          gm_columns := cols; gm_univariates := univariates |}, h', Ok tt)
  end.

Definition GaussianMultivariate_sample (m : GaussianMultivariate) (h : heap)
    (num_rows : Z) (conditions : option (list (label * pyobj)))
  : result DataFrame :=
  if fitted m then sample_numerics m h num_rows conditions
  else Raise NotFittedError.
End Library.

(** ** The synthesizer *)

(** [metadata._columns]: for every column, its properties. *)
Record SingleTableMetadata : Type := {
  _columns : list (label * list (string * pyobj));
}.

(** Modelled from the spec: the part of the instance that
    [BaseSingleTableSynthesizer], which is not among the sources, keeps: the
    metadata, the two flags, and whether a fit has succeeded. *)
Record BaseSingleTableSynthesizer : Type := {
  metadata : SingleTableMetadata;
  enforce_min_max_values : bool;
  enforce_rounding : bool;
  _fitted : bool;
}.

(** Modelled from the spec: [BaseSingleTableSynthesizer.__init__] stores its
    arguments and leaves the instance unfitted. *)
Definition BaseSingleTableSynthesizer_init (metadata : SingleTableMetadata)
    (enforce_min_max_values enforce_rounding : bool)
  : BaseSingleTableSynthesizer :=
  {| metadata := metadata;
     enforce_min_max_values := enforce_min_max_values;
     enforce_rounding := enforce_rounding;
     _fitted := false |}.

Record GaussianCopulaSynthesizer : Type := {
  base :> BaseSingleTableSynthesizer;
  default_distribution : pyobj;
  numerical_distributions : list (label * pyobj);
  _default_distribution : Univariate;
  _numerical_distributions : list (label * Univariate);
  _model : option GaussianMultivariate;
}.

(** [self._model = m] *)
Definition set_model (self : GaussianCopulaSynthesizer)
    (m : option GaussianMultivariate) : GaussianCopulaSynthesizer :=
  {| base := base self;
     default_distribution := default_distribution self;
     numerical_distributions := numerical_distributions self;
     _default_distribution := _default_distribution self;
     _numerical_distributions := _numerical_distributions self;
     _model := m |}.

(** [self.numerical_distributions] is a dictionary object that others hold
    too: [__init__] keeps the caller's own dictionary when it is not empty,
    and the attribute is public.  The record has what the object holds; a
    write to the object through any of its references, which leaves it
    holding [items], is this change of the instance.  The validated
    [_numerical_distributions], which [__init__] builds afresh, is not
    touched by it. *)
Definition write_numerical_distributions (self : GaussianCopulaSynthesizer)
    (items : list (label * pyobj)) : GaussianCopulaSynthesizer :=
  {| base := base self;
     default_distribution := default_distribution self;
     numerical_distributions := items;
     _default_distribution := _default_distribution self;
     _numerical_distributions := _numerical_distributions self;
     _model := _model self |}.

(** [x or 'beta'] *)
Definition or_beta (x : pyobj) : pyobj := if truthy x then x else PyStr "beta".

(** [x or {}], once [x] is known to be falsy or a dictionary *)
Definition or_empty_dict (x : pyarg) : list (label * pyobj) :=
  match x with
  | ADict items => items
  | AObj _ => []
  end.

(** [{field: cls._validate_distribution(d) for field, d in items}] *)
Fixpoint validate_fields (items : list (label * pyobj))
    (acc : list (label * Univariate)) : result (list (label * Univariate)) :=
  match items with
  | [] => Ok acc
  | (field, d) :: rest =>
      do cls <- _validate_distribution d;
      validate_fields rest (dict_set field cls acc)
  end.

(** [_model] starts as the class attribute [None].  The instance keeps the
    dictionary it is given, not a copy of it: what a later write to that
    dictionary does to the instance is [write_numerical_distributions]. *)
Definition __init__ (metadata : SingleTableMetadata)
    (enforce_min_max_values enforce_rounding : bool)
    (numerical_distributions : pyarg) (default_distribution : pyobj)
  : result GaussianCopulaSynthesizer :=
  let super := BaseSingleTableSynthesizer_init metadata enforce_min_max_values
                 enforce_rounding in
  if arg_truthy numerical_distributions && negb (isinstance_dict numerical_distributions)
  then Raise (TypeError "numerical_distributions can only be None or a dict instance")
  else
    let default_distribution' := or_beta default_distribution in
    let numerical_distributions' := or_empty_dict numerical_distributions in
    do _default <- _validate_distribution default_distribution';
    do _numerical <- validate_fields (or_empty_dict numerical_distributions) [];
    Ok {| base := super;
          default_distribution := default_distribution';
          numerical_distributions := numerical_distributions';
          _default_distribution := _default;
          _numerical_distributions := _numerical;
          _model := None |}.

(** *** [_fit] *)

(** The loop over [processed_data.columns].  [numerical_distributions] is
    the local copy, which grows; the lookups of the overrides read
    [self._numerical_distributions]. *)
Fixpoint assign_columns (self : GaussianCopulaSynthesizer) (cols : list label)
    (numerical_distributions : list (label * Univariate))
  : result (list (label * Univariate)) :=
  match cols with
  | [] => Ok numerical_distributions
  | column :: rest =>
      if dict_contains column numerical_distributions
      then assign_columns self rest numerical_distributions
      else
        match column with
        | LStr s =>
            let column_name := LStr (str_replace ".value" "" s) in
            assign_columns self rest
              (dict_set column
                 (dict_get_default column_name (_default_distribution self)
                    (_numerical_distributions self))
                 numerical_distributions)
        | LInt _ => Raise (AttributeError "'int' object has no attribute 'replace'")
        end
  end.

Section Methods.
Variable fit_numerics :
  list (label * Univariate) -> DataFrame -> heap ->
  exn + (list label * pval * heap).
Variable sample_numerics :
  GaussianMultivariate -> heap -> Z -> option (list (label * pyobj)) ->
  result DataFrame.

(** The instance and the store after the call, and how the call ended.
    The warnings filter installed around the library call is not
    modelled. *)
Definition _fit (self : GaussianCopulaSynthesizer) (processed_data : DataFrame)
    (h : heap) : GaussianCopulaSynthesizer * heap * result unit :=
  match assign_columns self (columns processed_data)
          (_numerical_distributions self) with
  | Raise e => (self, h, Raise e)
  | Ok numerical_distributions =>
      let model := GaussianMultivariate_new numerical_distributions in
      let '(model', h', r) :=
        GaussianMultivariate_fit fit_numerics model processed_data h in
      (set_model self (Some model'), h', r)
  end.

Definition _sample (self : GaussianCopulaSynthesizer) (h : heap) (num_rows : Z)
    (conditions : option (list (label * pyobj))) : result DataFrame :=
  match _model self with
  | None => Raise (AttributeError "'NoneType' object has no attribute 'sample'")
  | Some model =>
      GaussianMultivariate_sample sample_numerics model h num_rows conditions
  end.
End Methods.

(** *** [_warn_for_update_transformers] *)

(** A transformer: [None], or an instance with the names of its class and
    of the classes that class inherits from. *)
Inductive transformer : Type :=
| TransformerNone
| TransformerInstance (mro : list string).

(** [isinstance(t, OneHotEncoder)] *)
Definition isinstance_OneHotEncoder (t : transformer) : bool :=
  match t with
  | TransformerNone => false
  | TransformerInstance mro => bool_decide ("OneHotEncoder" ∈ mro)
  end.

Definition one_hot_warning (column : label) : string :=
  String.append "Using a OneHotEncoder transformer for column '"
    (String.append (label_str column)
       "' may slow down the preprocessing and modeling times.").

(** The instance and the warnings issued so far, after the call. *)
Fixpoint _warn_for_update_transformers (self : GaussianCopulaSynthesizer)
    (column_name_to_transformer : list (label * transformer))
    (warnings : list string)
  : GaussianCopulaSynthesizer * list string * result unit :=
  match column_name_to_transformer with
  | [] => (self, warnings, Ok tt)
  | (column, t) :: rest =>
      match dict_get column (_columns (metadata self)) with
      | None => (self, warnings, Raise (KeyError column))
      | Some properties =>
          match dict_get "sdtype" properties with
          | None => (self, warnings, Raise (KeyError (LStr "sdtype")))
          | Some sdtype =>
              if eq_str sdtype "categorical" && isinstance_OneHotEncoder t
              then _warn_for_update_transformers self rest
                     (warnings ++ [one_hot_warning column])
              else _warn_for_update_transformers self rest warnings
          end
      end
  end.

(** *** [get_learned_distributions] *)

(** The loop over [zip(columns, univariates)]; [learned_distributions] is
    the location of the dictionary being filled. *)
Fixpoint report_columns (self : GaussianCopulaSynthesizer)
    (learned_distributions : loc) (pairs : list (label * pval)) (h : heap) : heap :=
  match pairs with
  | [] => h
  | (column, learned_params) :: rest =>
      let distribution :=
        dict_get_default column (default_distribution self)
          (numerical_distributions self) in
      let entry := length h in
      let h1 := h ++ [ODict [(LStr "distribution", VAtom distribution);
                             (LStr "learned_parameters", learned_params)]] in
      report_columns self learned_distributions rest
        (store_dict_set learned_distributions column (VRef entry) h1)
  end.

Definition not_learned_yet : string :=
  "Distributions have not been learned yet. Please fit your model first using 'fit'".

(** The store after the call, and the returned dictionary or the exception.
    [deepcopy] is without a result only on a store with a dangling
    reference, which Python does not have. *)
Definition get_learned_distributions (self : GaussianCopulaSynthesizer) (h : heap)
  : heap * result pval :=
  if negb (_fitted self) then (h, Raise (ValueError (Text not_learned_yet)))
  else
    match _model self with
    | None => (h, Raise (AttributeError "'NoneType' object has no attribute 'to_dict'"))
    | Some model =>
        match GaussianMultivariate_to_dict model with
        | Raise e => (h, Raise e)
        | Ok (columns, univariates0) =>
            match deepcopy h univariates0 with
            | None => (h, Raise (SystemError "dangling reference"))
            | Some (univariates, h1) =>
                match py_iter h1 univariates with
                | Raise e => (h1, Raise e)
                | Ok items =>
                    let learned_distributions := length h1 in
                    let h2 := h1 ++ [ODict []] in
                    (report_columns self learned_distributions (zip columns items) h2,
                     Ok (VRef learned_distributions))
                end
            end
        end
    end.

(** ** The assignment as the specification words it *)

(** The name without a trailing [suffix]. *)
Fixpoint strip_suffix (suffix s : string) : string :=
  if String.eqb s suffix then EmptyString
  else match s with
       | EmptyString => EmptyString
       | String c rest => String c (strip_suffix suffix rest)
       end.

(** "explicit override if present; else, if the column name (after stripping
    a [.value] suffix) matches a configured field, use that field's override;
    else use the default family" *)
Definition spec_family (self : GaussianCopulaSynthesizer) (column : string)
  : Univariate :=
  match dict_get (LStr column) (_numerical_distributions self) with
  | Some cls => cls
  | None =>
      dict_get_default (LStr (strip_suffix ".value" column))
        (_default_distribution self) (_numerical_distributions self)
  end.

(** ** Vocabulary of the statements *)

(** Configuration errors are the [TypeError] and the [ValueError] that
    [__init__] raises. *)
Definition configuration_error (e : exn) : bool :=
  match e with
  | TypeError _ | ValueError _ => true
  | _ => false
  end.

(** A family name outside the six names of [_DISTRIBUTIONS]. *)
Definition unrecognized (name : string) : Prop :=
  dict_get name _DISTRIBUTIONS = None.

(** The family [_fit] gives a column: its own override, or else the override
    of the name with every [.value] removed, or else the default. *)
Definition family_of (self : GaussianCopulaSynthesizer) (column : label)
  : Univariate :=
  match dict_get column (_numerical_distributions self) with
  | Some cls => cls
  | None =>
      match column with
      | LStr s =>
          dict_get_default (LStr (str_replace ".value" "" s))
            (_default_distribution self) (_numerical_distributions self)
      | LInt _ => _default_distribution self
      end
  end.

(** The family name [get_learned_distributions] reports for a column. *)
Definition reported_family (self : GaussianCopulaSynthesizer) (column : label)
  : pyobj :=
  dict_get_default column (default_distribution self) (numerical_distributions self).

(** No fit has succeeded: the flag is down and the instance holds no model,
    or a model whose own fit did not complete. *)
Definition unfitted (self : GaussianCopulaSynthesizer) : Prop :=
  _fitted self = false /\
  match _model self with
  | None => True
  | Some model => fitted model = false
  end.

(** Whether the hook warns about an entry of its argument. *)
Definition warns (self : GaussianCopulaSynthesizer) (entry : label * transformer)
  : bool :=
  match dict_get entry.1 (_columns (metadata self)) with
  | Some properties =>
      match dict_get "sdtype" properties with
      | Some sdtype => eq_str sdtype "categorical" && isinstance_OneHotEncoder entry.2
      | None => false
      end
  | None => false
  end.

(** The column is described in the metadata, with an sdtype. *)
Definition described (self : GaussianCopulaSynthesizer) (column : label) : Prop :=
  exists properties sdtype,
    dict_get column (_columns (metadata self)) = Some properties /\
    dict_get "sdtype" properties = Some sdtype.

Definition no_metadata : SingleTableMetadata := {| _columns := [] |}.

(** ** Vocabulary of the store *)

Definition val_in (lo hi : nat) (v : pval) : Prop :=
  match v with
  | VRef l => lo <= l < hi
  | VAtom _ => True
  end.

(** Every reference [o] holds is to a location from [lo] up to [hi]. *)
Definition obj_in (lo hi : nat) (o : obj) : Prop :=
  Forall (val_in lo hi) (obj_children o).

(** No object of the store refers outside the store. *)
Definition closed (h : heap) : Prop :=
  forall l o, h !! l = Some o -> obj_in 0 (length h) o.

(** The objects one can get to from a value. *)
Inductive reach (h : heap) : pval -> loc -> Prop :=
| reach_here l : reach h (VRef l) l
| reach_child l o v l' :
    h !! l = Some o -> v ∈ obj_children o -> reach h v l' -> reach h (VRef l) l'.

(** What a caller can do to the objects it owns: overwrite one, with
    references to whatever exists, or create a new object (which it then
    owns, when [owned] says so). *)
Inductive mutated (owned : loc -> Prop) : heap -> heap -> Prop :=
| mutated_refl h : mutated owned h h
| mutated_write h l o h' :
    owned l -> l < length h -> obj_in 0 (length h) o ->
    mutated owned (<[l := o]> h) h' -> mutated owned h h'
| mutated_alloc h o h' :
    obj_in 0 (S (length h)) o ->
    mutated owned (h ++ [o]) h' -> mutated owned h h'.

(** A fit has succeeded: the flag is up and the instance holds a fitted
    model, whose parameter structures, one for each column, are in the
    store. *)
Definition fitted_in (self : GaussianCopulaSynthesizer) (h : heap) : Prop :=
  _fitted self = true /\
  exists model lu us,
    _model self = Some model /\
    fitted model = true /\
    gm_univariates model = VRef lu /\
    h !! lu = Some (OList us) /\
    length us = length (gm_columns model) /\
    closed h.

(** A tree, down to a depth. *)
Fixpoint cut (n : nat) (t : tree) : tree :=
  match n with
  | O => TCut
  | S n' =>
      match t with
      | TAtom a => TAtom a
      | TList items => TList (map (cut n') items)
      | TDict items => TDict (map (fun kv => (kv.1, cut n' kv.2)) items)
      | TCut => TCut
      end
  end.

(** [t[k]] *)
Definition tree_get (k : label) (t : tree) : option tree :=
  match t with
  | TDict items => dict_get k items
  | _ => None
  end.

(** The report, as a structure: for every column, in the order of the
    columns, the reported family and the parameters. *)
Definition report_entry (self : GaussianCopulaSynthesizer) (column : label)
    (parameters : tree) : tree :=
  TDict [(LStr "distribution", TAtom (reported_family self column));
         (LStr "learned_parameters", parameters)].

Definition report_tree (self : GaussianCopulaSynthesizer) (columns : list label)
    (parameters : list tree) : tree :=
  TDict (fold_left
           (fun d ct => dict_set ct.1 (report_entry self ct.1 ct.2) d)
           (zip columns parameters) []).

(** The copy of a value under a memo. *)
Definition rename (m : gmap loc loc) (v : pval) : pval :=
  match v with
  | VRef l => VRef (default l (m !! l))
  | VAtom a => VAtom a
  end.

Definition in_memo (m : gmap loc loc) (v : pval) : Prop :=
  match v with
  | VRef l => is_Some (m !! l)
  | VAtom _ => True
  end.

(** ** Invariants of the loops *)

(** What the local dictionary of [_fit] satisfies all along the loop: it
    extends the configured overrides, and gives every key its family. *)
Definition assignment_inv (self : GaussianCopulaSynthesizer)
    (nd : list (label * Univariate)) : Prop :=
  (forall k cls, dict_get k (_numerical_distributions self) = Some cls ->
                 dict_get k nd = Some cls) /\
  (forall k cls, dict_get k nd = Some cls -> cls = family_of self k).

(** What holds of the store and the memo all along a copy of a structure of
    the store [h0]; [pending] are the objects entered in the memo whose
    children are still being copied. *)
Record copy_inv (h0 : heap) (pending : loc -> Prop) (c : copier) : Prop := {
  inv_old : exists ext, c.1 = h0 ++ ext;
  inv_range : forall l l', c.2 !! l = Some l' ->
                l < length h0 /\ length h0 <= l' < length c.1;
  inv_inj : forall l1 l2 l', c.2 !! l1 = Some l' -> c.2 !! l2 = Some l' -> l1 = l2;
  inv_done : forall l l', c.2 !! l = Some l' -> ~ pending l ->
               exists o, h0 !! l = Some o /\
                         c.1 !! l' = Some (obj_map (rename c.2) o) /\
                         Forall (in_memo c.2) (obj_children o);
  inv_new : forall l' o', length h0 <= l' -> c.1 !! l' = Some o' ->
              obj_in (length h0) (length c.1) o';
}.

(** What a copy of [v] that started in [c] has reached when it returns [v']
    in [c']. *)
Record copy_post (h0 : heap) (pending : loc -> Prop) (c : copier) (v v' : pval)
    (c' : copier)
  : Prop := {
  post_inv : copy_inv h0 pending c';
  post_memo : c.2 ⊆ c'.2;
  post_val : v' = rename c'.2 v;
  post_in : in_memo c'.2 v;
}.

(** The dictionary [get_learned_distributions] makes for a column. *)
Definition entry_of (self : GaussianCopulaSynthesizer) (column : label)
    (learned_params : pval) : obj :=
  ODict [(LStr "distribution", VAtom (reported_family self column));
         (LStr "learned_parameters", learned_params)].

(** [closed], as a test. *)
Definition val_inb (hi : nat) (v : pval) : bool :=
  match v with
  | VRef l => Nat.ltb l hi
  | VAtom _ => true
  end.

Definition closedb (h : heap) : bool :=
  forallb (fun o => forallb (val_inb (length h)) (obj_children o)) h.

(** ** Examples

    A stand-in for the library, for the examples: fitting fails on a frame
    without rows, and otherwise gives every column the parameters
    [{'loc': 0.0, 'scale': 1.0}]; sampling returns an empty frame. *)

Definition toy_parameters : obj :=
  ODict [(LStr "loc", VAtom (PyFloat 0));
         (LStr "scale", VAtom (PyFloat 4607182418800017408))].

Definition toy_fit (distribution : list (label * Univariate)) (X : DataFrame)
    (h : heap) : exn + (list label * pval * heap) :=
  match rows X with
  | [] => inl (LibraryError "ValueError" "no rows")
  | _ :: _ =>
      let h1 := h ++ map (fun _ => toy_parameters) (columns X) in
      inr (columns X, VRef (length h1),
           h1 ++ [OList (map VRef (seq (length h) (length (columns X))))])
  end.

Definition toy_sample (m : GaussianMultivariate) (h : heap) (num_rows : Z)
    (conditions : option (list (label * pyobj))) : result DataFrame :=
  Ok {| columns := gm_columns m; rows := [] |}.

(** Modelled from the spec: what [BaseSingleTableSynthesizer], which is not
    among the sources, does around [_fit]: the instance is fitted once
    [_fit] has succeeded. *)
Definition mark_fitted (self : GaussianCopulaSynthesizer) : GaussianCopulaSynthesizer :=
  {| base := {| metadata := metadata self;
                enforce_min_max_values := enforce_min_max_values self;
                enforce_rounding := enforce_rounding self;
                _fitted := true |};
     default_distribution := default_distribution self;
     numerical_distributions := numerical_distributions self;
     _default_distribution := _default_distribution self;
     _numerical_distributions := _numerical_distributions self;
     _model := _model self |}.

(** The instance [GaussianCopulaSynthesizer(metadata, numerical_distributions=nd)]
    for a dictionary [nd] of recognized names, before any fit. *)
Definition configured (md : SingleTableMetadata)
    (nd : list (label * string)) : GaussianCopulaSynthesizer :=
  {| base := BaseSingleTableSynthesizer_init md true true;
     default_distribution := PyStr "beta";
     numerical_distributions := map (fun kv => (kv.1, PyStr kv.2)) nd;
     _default_distribution := BetaUnivariate;
     _numerical_distributions :=
       map (fun kv => (kv.1, dict_get_default kv.2 BetaUnivariate _DISTRIBUTIONS)) nd;
     _model := None |}.

Definition two_columns : DataFrame :=
  {| columns := [LStr "age"; LStr "fare.value"];
     rows := [[PyFloat 0; PyFloat 0]] |}.

Definition shop_metadata : SingleTableMetadata :=
  {| _columns := [(LStr "colour", [("sdtype", PyStr "categorical")]);
                  (LStr "size", [("sdtype", PyStr "categorical")]);
                  (LStr "price", [("sdtype", PyStr "numerical")])] |}.

(** The instance [GaussianCopulaSynthesizer(metadata,
    numerical_distributions={'x': 'norm'})] after a fit on a frame with the
    columns [x.value] and [y], and the store after that fit. *)
Definition x_value_frame : DataFrame :=
  {| columns := [LStr "x.value"; LStr "y"];
     rows := [[PyFloat 0; PyFloat 0]] |}.

Definition fitted_example : GaussianCopulaSynthesizer :=
  mark_fitted
    (_fit toy_fit (configured no_metadata [(LStr "x", "norm")]) x_value_frame []).1.1.

Definition fitted_example_store : heap :=
  (_fit toy_fit (configured no_metadata [(LStr "x", "norm")]) x_value_frame []).1.2.

(** The same, with [numerical_distributions={'x': 'norm', 'x.value': 'gamma'}]. *)
Definition both_names_example : GaussianCopulaSynthesizer :=
  mark_fitted
    (_fit toy_fit
       (configured no_metadata [(LStr "x", "norm"); (LStr "x.value", "gamma")])
       x_value_frame []).1.1.

Definition both_names_store : heap :=
  (_fit toy_fit
     (configured no_metadata [(LStr "x", "norm"); (LStr "x.value", "gamma")])
     x_value_frame []).1.2.

(** ** Vocabulary of the further statements *)

(** The six family names. *)
Definition family_names : list string :=
  ["norm"; "beta"; "truncnorm"; "uniform"; "gamma"; "gaussian_kde"].

(** A specification [_validate_distribution] accepts. *)
Definition acceptable (d : pyobj) : Prop :=
  exists cls, _validate_distribution d = Ok cls.

(** A column label that is not a string and has no override of its own:
    [_fit] cannot call [.replace] on it. *)
Definition unconfigured_label (self : GaussianCopulaSynthesizer) (column : label)
  : bool :=
  match column with
  | LInt _ => negb (dict_contains column (_numerical_distributions self))
  | LStr _ => false
  end.

(** The configuration [__init__] accepts: the default and every override are
    acceptable specifications. *)
Definition well_configured (self : GaussianCopulaSynthesizer) : Prop :=
  acceptable (default_distribution self) /\
  forall field d, (field, d) ∈ numerical_distributions self -> acceptable d.

(** ** The validated overrides as a dictionary object

    [_fit] makes a [deepcopy] of [self._numerical_distributions]; its loop
    writes to the copy and reads the dictionary of the instance.  Here the
    dictionaries are objects of a store, so that the two can be told apart. *)

Abbreviation dicts := (list (list (label * Univariate))).

(** [deepcopy] of a dictionary from labels to classes: a new dictionary with
    the same items, labels and classes being copied as themselves. *)
Definition deepcopy_dict (s : dicts) (l : loc) : option (loc * dicts) :=
  match s !! l with
  | Some d => Some (length s, s ++ [d])
  | None => None
  end.

(** [d[k] = v] on the dictionary at [l] *)
Definition dicts_set (l : loc) (k : label) (v : Univariate) (s : dicts) : dicts :=
  match s !! l with
  | Some d => <[l := dict_set k v d]> s
  | None => s
  end.

(** The loop of [_fit] on the objects: [numerical_distributions] is the
    local dictionary, [self_nd] the one of the instance. *)
Fixpoint assign_columns_in (self_default : Univariate)
    (self_nd numerical_distributions : loc) (cols : list label) (s : dicts)
  : dicts * result unit :=
  match cols with
  | [] => (s, Ok tt)
  | column :: rest =>
      if dict_contains column (default [] (s !! numerical_distributions))
      then assign_columns_in self_default self_nd numerical_distributions rest s
      else
        match column with
        | LStr c =>
            let column_name := LStr (str_replace ".value" "" c) in
            assign_columns_in self_default self_nd numerical_distributions rest
              (dicts_set numerical_distributions column
                 (dict_get_default column_name self_default
                    (default [] (s !! self_nd)))
                 s)
        | LInt _ => (s, Raise (AttributeError "'int' object has no attribute 'replace'"))
        end
  end.

(** The copy and the loop: the store after them, and the dictionary that
    the model is given. *)
Definition fit_assignment (self_default : Univariate) (self_nd : loc)
    (cols : list label) (s : dicts) : dicts * result loc :=
  match deepcopy_dict s self_nd with
  | None => (s, Raise (SystemError "dangling reference"))
  | Some (numerical_distributions, s1) =>
      let '(s2, r) :=
        assign_columns_in self_default self_nd numerical_distributions cols s1 in
      (s2, do _ <- r; Ok numerical_distributions)
  end.

(** ** Dictionaries *)

Section DictFacts.
Context {K V : Type} `{EqDecision K}.
Implicit Types (d : list (K * V)) (k : K) (v : V).

Lemma dict_get_set_eq k v d : dict_get k (dict_set k v d) = Some v.
Proof.
  induction d as [|[k' v'] d IH]; simpl.
  - by rewrite decide_True.
  - destruct (decide (k' = k)) as [->|Hne]; simpl.
    + by rewrite decide_True.
    + by rewrite decide_False.
Qed.

Lemma dict_get_set_ne k k' v d :
  k <> k' -> dict_get k' (dict_set k v d) = dict_get k' d.
Proof.
  intros Hne. induction d as [|[k0 v0] d IH]; simpl.
  - by rewrite decide_False.
  - destruct (decide (k0 = k)) as [->|Hne0]; simpl.
    + by rewrite !decide_False.
    + destruct (decide (k0 = k')); [done | apply IH].
Qed.

Lemma dict_get_In k v d : dict_get k d = Some v -> (k, v) ∈ d.
Proof.
  induction d as [|[k' v'] d IH]; simpl; [done |].
  destruct (decide (k' = k)) as [->|Hne].
  - intros [= ->]. apply list_elem_of_here.
  - intros Hget. apply list_elem_of_further, IH, Hget.
Qed.

End DictFacts.

(** ** Validation of the configuration *)

#[local] Arguments _DISTRIBUTIONS : simpl never.

Lemma validate_recognized (name : string) (cls : Univariate) :
  dict_get name _DISTRIBUTIONS = Some cls ->
  _validate_distribution (PyStr name) = Ok cls.
Proof. intros Hget. unfold _validate_distribution. by rewrite Hget. Qed.

Lemma validate_unrecognized (name : string) :
  unrecognized name ->
  _validate_distribution (PyStr name) = Raise (ValueError (InvalidSpecification (PyStr name))).
Proof. intros Hget. unfold _validate_distribution. by rewrite Hget. Qed.

Lemma validate_not_str (d : pyobj) :
  isinstance_str d = false ->
  _validate_distribution d = Raise (ValueError (InvalidSpecification d)).
Proof. by destruct d. Qed.

Lemma validate_Ok_inv (d : pyobj) (cls : Univariate) :
  _validate_distribution d = Ok cls ->
  exists name, d = PyStr name /\ dict_get name _DISTRIBUTIONS = Some cls.
Proof.
  unfold _validate_distribution.
  destruct d as [| | | |name|]; try discriminate.
  destruct (dict_get name _DISTRIBUTIONS) as [cls'|] eqn:Hget; [| discriminate].
  intros [= ->]. by exists name.
Qed.

(** Every entry the comprehension went through was acceptable. *)
Lemma validate_fields_Ok_inv items : forall acc r,
  validate_fields items acc = Ok r ->
  forall field d, (field, d) ∈ items ->
    exists cls, _validate_distribution d = Ok cls.
Proof.
  induction items as [|[f0 d0] items IH]; simpl; intros acc r Hok field d Hin.
  - by apply elem_of_nil in Hin.
  - destruct (_validate_distribution d0) as [cls0|e] eqn:Hv; simpl in Hok; [| discriminate].
    apply elem_of_cons in Hin as [[= -> ->]|Hin]; [by exists cls0 |].
    by apply (IH _ _ Hok field d).
Qed.

Lemma validate_fields_raises items : forall acc field d e,
  (field, d) ∈ items ->
  _validate_distribution d = Raise e ->
  exists field' d',
    (field', d') ∈ items /\
    validate_fields items acc = Raise (ValueError (InvalidSpecification d')) /\
    _validate_distribution d' = Raise (ValueError (InvalidSpecification d')).
Proof.
  induction items as [|[f0 d0] items IH]; simpl; intros acc field d e Hin Hbad.
  - by apply elem_of_nil in Hin.
  - destruct (_validate_distribution d0) as [cls0|e0] eqn:Hv; simpl.
    + apply elem_of_cons in Hin as [[= -> ->]|Hin]; [congruence |].
      destruct (IH (dict_set f0 cls0 acc) field d e Hin Hbad) as (f' & d' & Hin' & Hr & Hv').
      exists f', d'. split; [by apply list_elem_of_further | done].
    + exists f0, d0. assert (e0 = ValueError (InvalidSpecification d0)) as ->.
      { unfold _validate_distribution in Hv.
        destruct d0 as [| | | |name|]; try congruence.
        destruct (dict_get name _DISTRIBUTIONS); congruence. }
      split; [apply list_elem_of_here | done].
Qed.

(** Past the type check, [__init__] is the two validations. *)
Lemma init_unfold md emm er nd dd :
  (arg_truthy nd && negb (isinstance_dict nd)) = false ->
  __init__ md emm er nd dd =
    (do _default <- _validate_distribution (or_beta dd);
     do _numerical <- validate_fields (or_empty_dict nd) [];
     Ok {| base := BaseSingleTableSynthesizer_init md emm er;
           default_distribution := or_beta dd;
           numerical_distributions := or_empty_dict nd;
           _default_distribution := _default;
           _numerical_distributions := _numerical;
           _model := None |}).
Proof. intros Hguard. unfold __init__. by rewrite Hguard. Qed.

Lemma init_Ok_inv md emm er nd dd self :
  __init__ md emm er nd dd = Ok self ->
  (arg_truthy nd && negb (isinstance_dict nd)) = false /\
  base self = BaseSingleTableSynthesizer_init md emm er /\
  default_distribution self = or_beta dd /\
  numerical_distributions self = or_empty_dict nd /\
  _validate_distribution (or_beta dd) = Ok (_default_distribution self) /\
  validate_fields (or_empty_dict nd) [] = Ok (_numerical_distributions self) /\
  _model self = None.
Proof.
  unfold __init__.
  destruct (arg_truthy nd && negb (isinstance_dict nd)); [discriminate |].
  destruct (_validate_distribution (or_beta dd)) as [cls|] eqn:Hd; simpl; [| discriminate].
  destruct (validate_fields (or_empty_dict nd) []) as [r|] eqn:Hf; simpl; [| discriminate].
  intros [= <-]. simpl. done.
Qed.


Lemma validate_Raise_inv (d : pyobj) (e : exn) :
  _validate_distribution d = Raise e -> e = ValueError (InvalidSpecification d).
Proof.
  unfold _validate_distribution.
  destruct d as [| | | |name|]; try congruence.
  destruct (dict_get name _DISTRIBUTIONS); congruence.
Qed.

Lemma recognized_names (name : string) (cls : Univariate) :
  dict_get name _DISTRIBUTIONS = Some cls ->
  name ∈ ["norm"; "beta"; "truncnorm"; "uniform"; "gamma"; "gaussian_kde"].
Proof.
  intros Hget. apply dict_get_In in Hget. unfold _DISTRIBUTIONS in Hget.
  repeat (apply elem_of_cons in Hget as [[= -> _]|Hget]; [set_solver |]).
  by apply elem_of_nil in Hget.
Qed.

Lemma or_beta_truthy (d : pyobj) : truthy d = true -> or_beta d = d.
Proof. unfold or_beta. by intros ->. Qed.

Lemma truthy_nonempty_str (name : string) : name <> "" -> truthy (PyStr name) = true.
Proof.
  intros Hne. simpl. destruct (String.eqb name "") eqn:Heq; [| done].
  by apply String.eqb_eq in Heq.
Qed.

(** A default that is set and is not acceptable stops the construction. *)
Lemma init_bad_default md emm er nd dd e :
  truthy dd = true ->
  _validate_distribution dd = Raise e ->
  exists e', __init__ md emm er nd dd = Raise e' /\ configuration_error e' = true.
Proof.
  intros Htruthy Hbad.
  destruct (arg_truthy nd && negb (isinstance_dict nd)) eqn:Hguard.
  - unfold __init__. rewrite Hguard. by eexists.
  - rewrite init_unfold by done. rewrite or_beta_truthy by done.
    rewrite Hbad. simpl. apply validate_Raise_inv in Hbad as ->. by eexists.
Qed.

(** An override that is not acceptable stops the construction. *)
Lemma init_bad_override md emm er items dd field d e :
  (field, d) ∈ items ->
  _validate_distribution d = Raise e ->
  exists e', __init__ md emm er (ADict items) dd = Raise e' /\
             configuration_error e' = true.
Proof.
  intros Hin Hbad.
  rewrite init_unfold by (simpl; apply andb_false_r).
  destruct (_validate_distribution (or_beta dd)) as [cls|e0] eqn:Hd; simpl.
  - destruct (validate_fields_raises items [] field d e Hin Hbad)
      as (f' & d' & _ & -> & _).
    simpl. by eexists.
  - apply validate_Raise_inv in Hd as ->. by eexists.
Qed.

(** ** Construction: the claims *)

(** [configured md []] is [GaussianCopulaSynthesizer(md)]. *)
Lemma init_configured md :
  __init__ md true true (AObj PyNone) PyNone = Ok (configured md []).
Proof. reflexivity. Qed.

(** C1 (as stated, at one input): the empty string is a family name outside
    the recognized set, and a construction with it as the default
    distribution returns an instance, with [beta] as the default. *)
Lemma empty_default_family_accepted :
  unrecognized "" /\
  __init__ no_metadata true true (AObj PyNone) (PyStr "") =
    Ok {| base := BaseSingleTableSynthesizer_init no_metadata true true;
          default_distribution := PyStr "beta";
          numerical_distributions := [];
          _default_distribution := BetaUnivariate;
          _numerical_distributions := [];
          _model := None |}.
Proof. split; reflexivity. Qed.

(** C1 (as amended): when the default distribution is a non-empty family
    name outside the recognized set, or the dictionary of overrides holds a
    family name outside the recognized set, construction raises a
    configuration error; no instance is returned. *)
Theorem init_rejects_unrecognized_family md emm er nd dd :
  (exists name, dd = PyStr name /\ name <> "" /\ unrecognized name) \/
  (exists items field name,
      nd = ADict items /\ (field, PyStr name) ∈ items /\ unrecognized name) ->
  exists e, __init__ md emm er nd dd = Raise e /\ configuration_error e = true.
Proof.
  intros [(name & -> & Hne & Hun)|(items & field & name & -> & Hin & Hun)].
  - eapply init_bad_default.
    + by apply truthy_nonempty_str.
    + by apply validate_unrecognized.
  - eapply init_bad_override; [exact Hin |].
    by apply validate_unrecognized.
Qed.

Lemma init_rejects_unrecognized_family_witness :
  exists e,
    __init__ no_metadata true true
      (ADict [(LStr "age", PyStr "norm"); (LStr "fare", PyStr "normal")])
      (PyStr "beta") = Raise e /\
    configuration_error e = true.
Proof.
  apply init_rejects_unrecognized_family.
  right. exists [(LStr "age", PyStr "norm"); (LStr "fare", PyStr "normal")],
           (LStr "fare"), "normal".
  split; [reflexivity |]. split; [| reflexivity].
  apply list_elem_of_further, list_elem_of_here.
Defined.

(** C7 (as stated, at one input): an empty list is passed for
    [numerical_distributions]; it is not a dictionary, and the construction
    returns an instance. *)
Lemma empty_list_of_distributions_accepted :
  isinstance_dict (AObj (PyOther "list" false)) = false /\
  __init__ no_metadata true true (AObj (PyOther "list" false)) PyNone =
    Ok {| base := BaseSingleTableSynthesizer_init no_metadata true true;
          default_distribution := PyStr "beta";
          numerical_distributions := [];
          _default_distribution := BetaUnivariate;
          _numerical_distributions := [];
          _model := None |}.
Proof. split; reflexivity. Qed.

(** C7 (as amended): when [numerical_distributions] is truthy and is not a
    dictionary, construction raises the [TypeError], whatever the other
    arguments are. *)
Theorem init_rejects_truthy_non_dict md emm er nd dd :
  isinstance_dict nd = false ->
  arg_truthy nd = true ->
  __init__ md emm er nd dd =
    Raise (TypeError "numerical_distributions can only be None or a dict instance").
Proof.
  intros Hdict Htruthy. unfold __init__. by rewrite Hdict, Htruthy.
Qed.

Lemma init_rejects_truthy_non_dict_witness :
  __init__ no_metadata true true (AObj (PyStr "norm")) (PyStr "nonsense") =
    Raise (TypeError "numerical_distributions can only be None or a dict instance").
Proof. apply init_rejects_truthy_non_dict; reflexivity. Defined.

(** C10 (as stated, at one input): the integer 0 is not a string, and a
    construction with it as the default distribution returns an instance,
    with [beta] as the default. *)
Lemma zero_default_accepted :
  isinstance_str (PyInt 0) = false /\
  __init__ no_metadata true true (AObj PyNone) (PyInt 0) =
    Ok {| base := BaseSingleTableSynthesizer_init no_metadata true true;
          default_distribution := PyStr "beta";
          numerical_distributions := [];
          _default_distribution := BetaUnivariate;
          _numerical_distributions := [];
          _model := None |}.
Proof. split; reflexivity. Qed.

(** C10 (as amended): validation rejects every specification that is not a
    string; construction raises when the default distribution is a truthy
    object that is not a string (an instance of a [copulas.univariate] class
    among them) and when an override in the dictionary is not a string; and
    an instance that was constructed has one of the six family names as its
    default and as each of its overrides. *)
Theorem only_family_names_accepted md emm er nd dd :
  (forall d, isinstance_str d = false ->
     _validate_distribution d = Raise (ValueError (InvalidSpecification d))) /\
  (isinstance_str dd = false -> truthy dd = true ->
     raised (__init__ md emm er nd dd) = true) /\
  (forall items field d,
     nd = ADict items -> (field, d) ∈ items -> isinstance_str d = false ->
     raised (__init__ md emm er nd dd) = true) /\
  (forall self, __init__ md emm er nd dd = Ok self ->
     (exists name,
        default_distribution self = PyStr name /\
        name ∈ ["norm"; "beta"; "truncnorm"; "uniform"; "gamma"; "gaussian_kde"] /\
        dict_get name _DISTRIBUTIONS = Some (_default_distribution self)) /\
     (forall field d, (field, d) ∈ numerical_distributions self ->
        exists name,
          d = PyStr name /\
          name ∈ ["norm"; "beta"; "truncnorm"; "uniform"; "gamma"; "gaussian_kde"])).
Proof.
  split; [exact validate_not_str |]. split; [| split].
  - intros Hstr Htruthy.
    destruct (init_bad_default md emm er nd dd _ Htruthy (validate_not_str dd Hstr))
      as (e & -> & _).
    reflexivity.
  - intros items field d -> Hin Hstr.
    destruct (init_bad_override md emm er items dd field d _ Hin (validate_not_str d Hstr))
      as (e & -> & _).
    reflexivity.
  - intros self Hok.
    apply init_Ok_inv in Hok as (_ & _ & Hdd & Hnd & Hdefault & Hfields & _).
    split.
    + apply validate_Ok_inv in Hdefault as (name & Hname & Hget).
      exists name. rewrite Hdd. split; [done |].
      split; [by eapply recognized_names | done].
    + intros field d Hin. rewrite Hnd in Hin.
      destruct (validate_fields_Ok_inv _ _ _ Hfields field d Hin) as (cls & Hv).
      apply validate_Ok_inv in Hv as (name & -> & Hget).
      exists name. split; [done | by eapply recognized_names].
Qed.

Lemma only_family_names_accepted_witness :
  raised (__init__ no_metadata true true (AObj PyNone)
            (PyOther "copulas.univariate.BetaUnivariate" true)) = true.
Proof.
  apply (proj1 (proj2 (only_family_names_accepted no_metadata true true
                         (AObj PyNone)
                         (PyOther "copulas.univariate.BetaUnivariate" true))));
    reflexivity.
Defined.

(** ** Fitting: the assignment of families *)

Lemma dict_contains_true {K V} `{EqDecision K} (k : K) (d : list (K * V)) :
  dict_contains k d = true <-> is_Some (dict_get k d).
Proof.
  unfold dict_contains. destruct (dict_get k d); split; done.
Qed.

Lemma dict_contains_false {K V} `{EqDecision K} (k : K) (d : list (K * V)) :
  dict_contains k d = false <-> dict_get k d = None.
Proof. unfold dict_contains. by destruct (dict_get k d). Qed.

Section Assignment.
Variable self : GaussianCopulaSynthesizer.

Lemma assignment_inv_start : assignment_inv self (_numerical_distributions self).
Proof.
  split; [done |]. intros k cls Hget. unfold family_of. by rewrite Hget.
Qed.

Lemma assignment_inv_step (nd : list (label * Univariate)) (s : string) :
  assignment_inv self nd ->
  dict_get (LStr s) nd = None ->
  assignment_inv self
    (dict_set (LStr s)
       (dict_get_default (LStr (str_replace ".value" "" s))
          (_default_distribution self) (_numerical_distributions self)) nd).
Proof.
  intros [Hext Hfam] Hfresh. split.
  - intros k cls Hget. destruct (decide (LStr s = k)) as [<-|Hne].
    + apply Hext in Hget. congruence.
    + rewrite dict_get_set_ne by done. by apply Hext.
  - intros k cls. destruct (decide (LStr s = k)) as [<-|Hne].
    + rewrite dict_get_set_eq. intros [= <-]. unfold family_of.
      destruct (dict_get (LStr s) (_numerical_distributions self)) as [cls'|] eqn:Hown;
        [| done].
      apply Hext in Hown. congruence.
    + rewrite dict_get_set_ne by done. apply Hfam.
Qed.

Lemma assign_columns_spec (cols : list label) : forall nd,
  assignment_inv self nd ->
  Forall (fun column => exists s, column = LStr s) cols ->
  exists nd',
    assign_columns self cols nd = Ok nd' /\
    assignment_inv self nd' /\
    (forall k, is_Some (dict_get k nd) -> is_Some (dict_get k nd')) /\
    (forall column, column ∈ cols -> is_Some (dict_get column nd')).
Proof.
  induction cols as [|column cols IH]; intros nd Hinv Hstr.
  - exists nd. split; [done |]. split; [done |]. split; [done |].
    intros column Hin. by apply elem_of_nil in Hin.
  - apply Forall_cons in Hstr as [[s ->] Hstr]. simpl.
    destruct (dict_contains (LStr s) nd) eqn:Hc.
    + destruct (IH nd Hinv Hstr) as (nd' & Hok & Hinv' & Hmono & Hcov).
      exists nd'. split; [done |]. split; [done |]. split; [done |].
      intros column Hin. apply elem_of_cons in Hin as [->|Hin]; [| by apply Hcov].
      apply Hmono. by apply dict_contains_true.
    + apply dict_contains_false in Hc.
      destruct (IH _ (assignment_inv_step nd s Hinv Hc) Hstr)
        as (nd' & Hok & Hinv' & Hmono & Hcov).
      exists nd'. split; [done |]. split; [done |]. split.
      * intros k Hk. apply Hmono. destruct (decide (LStr s = k)) as [<-|Hne].
        -- rewrite dict_get_set_eq. by eexists.
        -- by rewrite dict_get_set_ne.
      * intros column Hin. apply elem_of_cons in Hin as [->|Hin]; [| by apply Hcov].
        apply Hmono. rewrite dict_get_set_eq. by eexists.
Qed.

(** The loop reads the configuration, never the model. *)
Lemma assign_columns_set_model (m : option GaussianMultivariate) (cols : list label) :
  forall nd, assign_columns (set_model self m) cols nd = assign_columns self cols nd.
Proof.
  induction cols as [|column cols IH]; intros nd; simpl; [done |].
  destruct (dict_contains column nd); [apply IH |].
  destruct column; [apply IH | done].
Qed.
End Assignment.

Lemma fit_numerics_distribution fit_numerics model X h :
  distribution (GaussianMultivariate_fit fit_numerics model X h).1.1 = distribution model.
Proof.
  unfold GaussianMultivariate_fit.
  destruct (fit_numerics (distribution model) X h) as [e|[[cols us] h']]; done.
Qed.

Lemma fit_assigned fit_numerics self data h assignment :
  assign_columns self (columns data) (_numerical_distributions self) = Ok assignment ->
  exists model,
    _model (_fit fit_numerics self data h).1.1 = Some model /\
    distribution model = assignment.
Proof.
  intros Hassign. unfold _fit. rewrite Hassign.
  pose proof (fit_numerics_distribution fit_numerics
                (GaussianMultivariate_new assignment) data h) as Hd.
  destruct (GaussianMultivariate_fit fit_numerics
              (GaussianMultivariate_new assignment) data h) as [[model' h'] r].
  exists model'. split; [done |]. exact Hd.
Qed.

(** C2 (as stated, at one input): with an override configured under [x0],
    the column [x.value0] has no [.value] suffix to strip and no override of
    its own, so the assignment the claim describes is the default family;
    [_fit] gives the column the override of [x0]. *)
Lemma value_inside_name_is_removed :
  __init__ no_metadata true true (ADict [(LStr "x0", PyStr "norm")]) PyNone =
    Ok (configured no_metadata [(LStr "x0", "norm")]) /\
  spec_family (configured no_metadata [(LStr "x0", "norm")]) "x.value0" = BetaUnivariate /\
  _model (_fit toy_fit (configured no_metadata [(LStr "x0", "norm")])
            {| columns := [LStr "x.value0"]; rows := [[PyFloat 0]] |} []).1.1 =
    Some {| distribution := [(LStr "x0", GaussianUnivariate);
                             (LStr "x.value0", GaussianUnivariate)];
            fitted := true;
            gm_columns := [LStr "x.value0"];
            gm_univariates := VRef 1 |}.
Proof. repeat split; reflexivity. Qed.

(** The model [_fit] builds is given every column's family. *)
Lemma fit_distribution_spec fit_numerics self data h :
  Forall (fun column => exists s, column = LStr s) (columns data) ->
  exists model,
    _model (_fit fit_numerics self data h).1.1 = Some model /\
    forall column, column ∈ columns data ->
      dict_get column (distribution model) = Some (family_of self column).
Proof.
  intros Hstr.
  destruct (assign_columns_spec self (columns data) _ (assignment_inv_start self) Hstr)
    as (assignment & Hassign & [_ Hfam] & _ & Hcov).
  destruct (fit_assigned fit_numerics self data h assignment Hassign)
    as (model & Hmodel & Hdist).
  exists model. split; [done |].
  intros column Hin. rewrite Hdist.
  destruct (Hcov column Hin) as [cls Hget].
  rewrite Hget. f_equal. by apply Hfam.
Qed.

(** C2 (as amended): for every fit input whose column labels are strings,
    the model [_fit] builds is given, for every column of the input, the
    override configured under the column's own name; otherwise the override
    configured under the name with every occurrence of [.value] removed,
    when there is one; otherwise the default family. *)
Theorem fit_assigns_families fit_numerics self data h :
  Forall (fun column => exists s, column = LStr s) (columns data) ->
  exists model,
    _model (_fit fit_numerics self data h).1.1 = Some model /\
    forall column, column ∈ columns data ->
      dict_get column (distribution model) =
        Some match dict_get column (_numerical_distributions self) with
             | Some cls => cls
             | None =>
                 match column with
                 | LStr s =>
                     dict_get_default (LStr (str_replace ".value" "" s))
                       (_default_distribution self) (_numerical_distributions self)
                 | LInt _ => _default_distribution self
                 end
             end.
Proof. exact (fit_distribution_spec fit_numerics self data h). Qed.

Lemma fit_assigns_families_witness :
  exists model,
    _model (_fit toy_fit (configured no_metadata [(LStr "fare", "gamma")])
              two_columns []).1.1 = Some model /\
    forall column, column ∈ columns two_columns ->
      dict_get column (distribution model) =
        Some (family_of (configured no_metadata [(LStr "fare", "gamma")]) column).
Proof.
  apply (fit_assigns_families toy_fit (configured no_metadata [(LStr "fare", "gamma")])
           two_columns []).
  simpl.
  repeat (apply List.Forall_cons; [by eexists |]). apply List.Forall_nil.
Defined.

(** ** Fitting: the replacement of the model *)

(** C8: [_fit] that fails while it assigns the families leaves the instance,
    its model included, and the store as they were.  Otherwise the instance
    holds a model built from the assignment alone, whatever it held before:
    the fitted model when the library's fit returns, and, when the library's
    fit raises, a model that was never fitted, from which neither a sample
    nor a report can be had; the library's error is the outcome of the
    call. *)
Theorem fit_replaces_model fit_numerics sample_numerics self data h :
  (forall e,
     assign_columns self (columns data) (_numerical_distributions self) = Raise e ->
     _fit fit_numerics self data h = (self, h, Raise e)) /\
  (forall assignment,
     assign_columns self (columns data) (_numerical_distributions self) = Ok assignment ->
     (forall cols univariates h',
        fit_numerics assignment data h = inr (cols, univariates, h') ->
        _fit fit_numerics self data h =
          (set_model self
             (Some {| distribution := assignment; fitted := true;
                      gm_columns := cols; gm_univariates := univariates |}),
           h', Ok tt)) /\
     (forall e,
        fit_numerics assignment data h = inl e ->
        let self' := set_model self (Some (GaussianMultivariate_new assignment)) in
        _fit fit_numerics self data h = (self', h, Raise e) /\
        (forall h0 num_rows conditions,
           _sample sample_numerics self' h0 num_rows conditions = Raise NotFittedError) /\
        (forall h0,
           raised (get_learned_distributions self' h0).2 = true)) /\
     (forall previous,
        _fit fit_numerics (set_model self previous) data h =
        _fit fit_numerics self data h)).
Proof.
  split.
  - intros e Hassign. unfold _fit. by rewrite Hassign.
  - intros assignment Hassign. split; [| split].
    + intros cols univariates h' Hfit. unfold _fit, GaussianMultivariate_fit.
      rewrite Hassign. simpl. by rewrite Hfit.
    + intros e Hfit self'. split; [| split].
      * unfold _fit, GaussianMultivariate_fit. rewrite Hassign. simpl. by rewrite Hfit.
      * done.
      * intros h0. unfold get_learned_distributions. simpl.
        by destruct (_fitted self).
    + intros previous. unfold _fit. simpl.
      rewrite assign_columns_set_model, Hassign.
      by destruct (GaussianMultivariate_fit fit_numerics
                     (GaussianMultivariate_new assignment) data h) as [[model' h'] r].
Qed.

Lemma fit_replaces_model_witness :
  _fit toy_fit (configured no_metadata [])
    {| columns := [LStr "age"]; rows := [] |} [] =
  (set_model (configured no_metadata [])
     (Some (GaussianMultivariate_new [(LStr "age", BetaUnivariate)])),
   [], Raise (LibraryError "ValueError" "no rows")).
Proof.
  exact (proj1
           (proj1 (proj2 (proj2 (fit_replaces_model toy_fit toy_sample
                                   (configured no_metadata [])
                                   {| columns := [LStr "age"]; rows := [] |} [])
                            [(LStr "age", BetaUnivariate)] eq_refl))
              (LibraryError "ValueError" "no rows") eq_refl)).
Defined.

(** ** Before a fit *)

Lemma init_unfitted md emm er nd dd self :
  __init__ md emm er nd dd = Ok self -> unfitted self.
Proof.
  intros Hok. apply init_Ok_inv in Hok as (_ & Hbase & _ & _ & _ & _ & Hmodel).
  unfold unfitted. by rewrite Hbase, Hmodel.
Qed.

Lemma failed_fit_unfitted fit_numerics self data h self' h' e :
  unfitted self ->
  _fit fit_numerics self data h = (self', h', Raise e) ->
  unfitted self'.
Proof.
  intros [Hflag Hmodel]. unfold _fit, GaussianMultivariate_fit.
  destruct (assign_columns self (columns data) (_numerical_distributions self))
    as [assignment|e0].
  - simpl. destruct (fit_numerics assignment data h) as [e1|[[cols us] h1]].
    + intros [= <- _ _]. done.
    + discriminate.
  - intros [= <- _ _]. done.
Qed.

(** C4: on an instance for which no fit has succeeded,
    [get_learned_distributions] raises its [ValueError] and leaves the store
    as it was, and [_sample] raises: an [AttributeError] when the instance
    holds no model, the library's [NotFittedError] when it holds a model
    whose fit did not complete.  Neither returns a result. *)
Theorem unfitted_instance_fails sample_numerics self h num_rows conditions :
  unfitted self ->
  get_learned_distributions self h = (h, Raise (ValueError (Text not_learned_yet))) /\
  (_sample sample_numerics self h num_rows conditions =
     Raise (AttributeError "'NoneType' object has no attribute 'sample'") \/
   _sample sample_numerics self h num_rows conditions = Raise NotFittedError).
Proof.
  intros [Hflag Hmodel]. split.
  - unfold get_learned_distributions. by rewrite Hflag.
  - unfold _sample, GaussianMultivariate_sample.
    destruct (_model self) as [model|]; [| by left].
    right. by rewrite Hmodel.
Qed.

Lemma unfitted_instance_fails_witness :
  get_learned_distributions (configured no_metadata []) [] =
    ([], Raise (ValueError (Text not_learned_yet))) /\
  (_sample toy_sample (configured no_metadata []) [] 10 None =
     Raise (AttributeError "'NoneType' object has no attribute 'sample'") \/
   _sample toy_sample (configured no_metadata []) [] 10 None = Raise NotFittedError).
Proof.
  apply unfitted_instance_fails.
  apply (init_unfitted no_metadata true true (AObj PyNone) PyNone). reflexivity.
Defined.

(** ** The warning about transformers *)

Lemma warns_iff self column t :
  warns self (column, t) = true <->
  (exists properties,
      dict_get column (_columns (metadata self)) = Some properties /\
      dict_get "sdtype" properties = Some (PyStr "categorical")) /\
  isinstance_OneHotEncoder t = true.
Proof.
  unfold warns. simpl.
  destruct (dict_get column (_columns (metadata self))) as [properties|].
  - destruct (dict_get "sdtype" properties) as [sdtype|] eqn:Hsd.
    + rewrite andb_true_iff. split.
      * intros [Hcat Hone]. split; [| done]. exists properties. split; [done |].
        destruct sdtype; simpl in Hcat; try discriminate.
        by apply String.eqb_eq in Hcat as ->.
      * intros [(properties' & [= <-] & Hsd') Hone]. split; [| done].
        rewrite Hsd in Hsd'. by injection Hsd' as ->.
    + split; [done |]. intros [(properties' & [= <-] & Hsd') _]. congruence.
  - split; [done |]. by intros [(properties' & ? & _) _].
Qed.

(** C9 (as stated, at one input): [ghost] is not a column of the metadata;
    the hook warns about [colour], raises a [KeyError] at [ghost], and never
    reaches [size], a categorical column given a one-hot encoder. *)
Lemma unknown_column_stops_the_hook :
  warns (configured shop_metadata [])
    (LStr "size", TransformerInstance ["OneHotEncoder"; "BaseTransformer"]) = true /\
  _warn_for_update_transformers (configured shop_metadata [])
    [(LStr "colour", TransformerInstance ["OneHotEncoder"; "BaseTransformer"]);
     (LStr "ghost", TransformerNone);
     (LStr "size", TransformerInstance ["OneHotEncoder"; "BaseTransformer"])] [] =
  (configured shop_metadata [],
   [one_hot_warning (LStr "colour")],
   Raise (KeyError (LStr "ghost"))).
Proof. split; reflexivity. Qed.

(** C9 (as amended): for every mapping whose column names are all described
    in the metadata, the hook returns normally, leaves the instance as it
    was, and adds one warning, in the order of the mapping, for exactly the
    entries whose column has the sdtype [categorical] and whose transformer
    is an instance of [OneHotEncoder]. *)
Theorem warn_for_update_transformers_spec self mapping : forall warnings,
  (forall entry, entry ∈ mapping -> described self entry.1) ->
  _warn_for_update_transformers self mapping warnings =
    (self,
     warnings ++ map (fun entry => one_hot_warning entry.1)
                   (List.filter (warns self) mapping),
     Ok tt).
Proof.
  induction mapping as [|[column t] mapping IH]; intros warnings Hdesc; simpl.
  - by rewrite app_nil_r.
  - destruct (Hdesc (column, t)) as (properties & sdtype & Hcol & Hsd);
      [apply list_elem_of_here |].
    simpl in Hcol. unfold warns at 1. simpl. rewrite Hcol, Hsd.
    destruct (eq_str sdtype "categorical" && isinstance_OneHotEncoder t); simpl.
    + rewrite IH by (intros entry Hin; by apply Hdesc, list_elem_of_further).
      by rewrite <- app_assoc.
    + apply IH. intros entry Hin. by apply Hdesc, list_elem_of_further.
Qed.

Lemma warn_for_update_transformers_spec_witness :
  _warn_for_update_transformers (configured shop_metadata [])
    [(LStr "colour", TransformerInstance ["OneHotEncoder"; "BaseTransformer"]);
     (LStr "price", TransformerInstance ["OneHotEncoder"; "BaseTransformer"]);
     (LStr "size", TransformerInstance ["LabelEncoder"; "BaseTransformer"])] [] =
  (configured shop_metadata [], [one_hot_warning (LStr "colour")], Ok tt).
Proof.
  apply (warn_for_update_transformers_spec (configured shop_metadata [])
           [(LStr "colour", TransformerInstance ["OneHotEncoder"; "BaseTransformer"]);
            (LStr "price", TransformerInstance ["OneHotEncoder"; "BaseTransformer"]);
            (LStr "size", TransformerInstance ["LabelEncoder"; "BaseTransformer"])] []).
  intros entry Hin.
  repeat (apply elem_of_cons in Hin as [->|Hin];
          [eexists _, _; split; reflexivity |]).
  by apply elem_of_nil in Hin.
Defined.
(** ** The store: objects and their children *)

Lemma obj_children_map (f : pval -> pval) (o : obj) :
  obj_children (obj_map f o) = map f (obj_children o).
Proof.
  destruct o as [items|items]; simpl; [done |].
  rewrite !map_map. done.
Qed.

Lemma obj_with_children_map (f : pval -> pval) (o : obj) :
  obj_with_children o (map f (obj_children o)) = obj_map f o.
Proof.
  destruct o as [items|items]; simpl; [done |]. f_equal.
  induction items as [|[k v] items IH]; simpl; [done |]. by rewrite IH.
Qed.

Lemma obj_map_ext (f g : pval -> pval) (o : obj) :
  Forall (fun v => f v = g v) (obj_children o) -> obj_map f o = obj_map g o.
Proof.
  destruct o as [items|items]; simpl; intros Hall; f_equal.
  - induction items as [|v items IH]; simpl; [done |].
    apply Forall_cons in Hall as [-> Hall]. by rewrite IH.
  - induction items as [|[k v] items IH]; simpl; [done |].
    simpl in Hall. apply Forall_cons in Hall as [-> Hall]. by rewrite IH.
Qed.

Lemma obj_children_empty (o : obj) : obj_children (obj_empty o) = [].
Proof. by destruct o. Qed.

Lemma val_in_weaken lo hi lo' hi' v :
  lo' <= lo -> hi <= hi' -> val_in lo hi v -> val_in lo' hi' v.
Proof. destruct v; simpl; [done | lia]. Qed.

Lemma obj_in_weaken lo hi lo' hi' o :
  lo' <= lo -> hi <= hi' -> obj_in lo hi o -> obj_in lo' hi' o.
Proof.
  intros Hlo Hhi Hin. unfold obj_in. eapply Forall_impl; [exact Hin |].
  intros v. by apply val_in_weaken.
Qed.

(** ** [deepcopy] *)

Lemma rename_in_memo (m m' : gmap loc loc) (v : pval) :
  m ⊆ m' -> in_memo m v -> rename m' v = rename m v.
Proof.
  intros Hsub. destruct v as [a|l]; simpl; [done |].
  intros [l' Hl]. by rewrite Hl, (lookup_weaken _ _ _ _ Hl Hsub).
Qed.

Lemma in_memo_weaken (m m' : gmap loc loc) (v : pval) :
  m ⊆ m' -> in_memo m v -> in_memo m' v.
Proof.
  intros Hsub. destruct v as [a|l]; simpl; [done |].
  intros [l' Hl]. exists l'. by eapply lookup_weaken.
Qed.

Section DeepCopy.
Variable h0 : heap.
Hypothesis h0_closed : closed h0.

Lemma copy_inv_old_lookup pending c l :
  copy_inv h0 pending c -> l < length h0 -> c.1 !! l = h0 !! l.
Proof.
  intros [[ext Hext] _ _ _ _] Hl. rewrite Hext. by apply lookup_app_l.
Qed.

Lemma copy_inv_length pending c : copy_inv h0 pending c -> length h0 <= length c.1.
Proof. intros [[ext Hext] _ _ _ _]. rewrite Hext, length_app. lia. Qed.

(** The memo cannot hold every object of [h0] while one is missing from it. *)
Lemma memo_has_room pending c l :
  copy_inv h0 pending c -> l < length h0 -> c.2 !! l = None -> size c.2 < length h0.
Proof.
  intros Hinv Hl Hnone.
  assert (dom (<[l := 0]> c.2) ⊆ (set_seq 0 (length h0) : gset nat)) as Hsub.
  { intros x Hx. apply elem_of_dom in Hx as [x' Hx].
    apply elem_of_set_seq. destruct (decide (l = x)) as [<-|Hne]; [lia |].
    rewrite lookup_insert_ne in Hx by done.
    apply (inv_range _ _ _ Hinv) in Hx. lia. }
  apply subseteq_size in Hsub.
  rewrite size_dom, map_size_insert_None, size_set_seq in Hsub by done.
  exact Hsub.
Qed.

Lemma copy_list_spec (rec : pval -> copier -> option (pval * copier))
    (pending : loc -> Prop) (bound : nat) :
  (forall v c, copy_inv h0 pending c -> val_in 0 (length h0) v -> bound <= size c.2 ->
     exists v' c', rec v c = Some (v', c') /\ copy_post h0 pending c v v' c') ->
  forall vs c,
    copy_inv h0 pending c -> Forall (val_in 0 (length h0)) vs -> bound <= size c.2 ->
    exists vs' c',
      copy_list rec vs c = Some (vs', c') /\
      copy_inv h0 pending c' /\ c.2 ⊆ c'.2 /\
      vs' = map (rename c'.2) vs /\ Forall (in_memo c'.2) vs.
Proof.
  intros Hrec. induction vs as [|v vs IH]; intros c Hinv Hvs Hbound.
  - exists [], c. split; [done |]. split; [done |]. split; [done |]. split; [done | constructor].
  - apply Forall_cons in Hvs as [Hv Hvs]. simpl.
    destruct (Hrec v c Hinv Hv Hbound) as (v' & c1 & -> & [Hinv1 Hsub1 Hv' Hin1]).
    assert (bound <= size c1.2) as Hbound1.
    { pose proof (map_subseteq_size _ _ Hsub1). lia. }
    destruct (IH c1 Hinv1 Hvs Hbound1) as (vs' & c2 & -> & Hinv2 & Hsub2 & Hvs' & Hin2).
    exists (v' :: vs'), c2. split; [done |]. split; [done |].
    split; [by etrans |]. split.
    + simpl. rewrite Hvs', Hv'. f_equal. symmetry. by apply rename_in_memo.
    + apply Forall_cons. split; [| done]. by eapply in_memo_weaken.
Qed.

(** Entering a new object in the memo. *)
Lemma copy_inv_enter pending c l o :
  copy_inv h0 pending c -> l < length h0 -> c.2 !! l = None ->
  copy_inv h0 (fun x => pending x \/ x = l)
    (c.1 ++ [obj_empty o], <[l := length c.1]> c.2).
Proof.
  intros Hinv Hl Hnone. pose proof (copy_inv_length _ _ Hinv) as Hlen.
  destruct Hinv as [[ext Hext] Hrange Hinj Hdone Hnew].
  split; simpl.
  - exists (ext ++ [obj_empty o]). by rewrite Hext, <- app_assoc.
  - intros x x'. rewrite length_app. simpl.
    destruct (decide (l = x)) as [<-|Hne].
    + rewrite lookup_insert_eq. intros [= <-]. lia.
    + rewrite lookup_insert_ne by done. intros Hx. apply Hrange in Hx. lia.
  - intros x1 x2 x'.
    destruct (decide (l = x1)) as [<-|Hne1]; destruct (decide (l = x2)) as [<-|Hne2];
      rewrite ?lookup_insert_eq, ?lookup_insert_ne by done; try done.
    + intros [= <-] Hx. apply Hrange in Hx. lia.
    + intros Hx [= <-]. apply Hrange in Hx. lia.
    + apply Hinj.
  - intros x x' Hx Hpend.
    destruct (decide (l = x)) as [<-|Hne]; [by destruct Hpend; right |].
    rewrite lookup_insert_ne in Hx by done.
    destruct (Hdone x x' Hx) as (ox & Hox & Hcopy & Hin); [tauto |].
    pose proof (Hrange _ _ Hx) as [_ Hx'].
    assert (c.2 ⊆ <[l := length c.1]> c.2) as Hsub by by apply insert_subseteq.
    exists ox. split; [done |]. split.
    + rewrite lookup_app_l by lia. rewrite Hcopy. f_equal.
      apply obj_map_ext. eapply Forall_impl; [exact Hin |].
      intros v Hv. symmetry. by apply rename_in_memo.
    + eapply Forall_impl; [exact Hin |]. intros v. by apply in_memo_weaken.
  - intros x' o' Hx'. rewrite length_app. simpl. intros Hlook.
    destruct (decide (x' < length c.1)) as [Hlt|Hge].
    + rewrite lookup_app_l in Hlook by done.
      eapply obj_in_weaken; [| | by eapply Hnew]; lia.
    + apply lookup_lt_Some in Hlook as Hlt. rewrite length_app in Hlt. simpl in Hlt.
      assert (x' = length c.1) as -> by lia.
      rewrite lookup_app_r, Nat.sub_diag in Hlook by lia.
      injection Hlook as <-. unfold obj_in. by rewrite obj_children_empty.
Qed.

(** Filling the copy once its children are copied. *)
Lemma copy_inv_leave pending c l l' o :
  copy_inv h0 (fun x => pending x \/ x = l) c ->
  h0 !! l = Some o -> c.2 !! l = Some l' ->
  Forall (in_memo c.2) (obj_children o) ->
  copy_inv h0 pending
    (<[l' := obj_with_children o (map (rename c.2) (obj_children o))]> c.1, c.2).
Proof.
  intros Hinv Ho Hl Hchildren. pose proof (copy_inv_length _ _ Hinv) as Hlen.
  destruct Hinv as [[ext Hext] Hrange Hinj Hdone Hnew].
  pose proof (Hrange _ _ Hl) as [_ Hl'].
  assert (forall v, in_memo c.2 v -> val_in (length h0) (length c.1) (rename c.2 v))
    as Hfresh.
  { intros [a|x]; simpl; [done |]. intros [x' Hx]. rewrite Hx. simpl.
    by apply Hrange in Hx as [_ ?]. }
  split; simpl.
  - exists (<[l' - length h0 := obj_with_children o (map (rename c.2) (obj_children o))]> ext).
    rewrite Hext. apply insert_app_r_alt. lia.
  - intros x x' Hx. rewrite length_insert. by apply Hrange.
  - apply Hinj.
  - intros x x' Hx Hpend. destruct (decide (x = l)) as [->|Hne].
    + assert (x' = l') as -> by congruence.
      exists o. split; [done |]. split; [| done].
      rewrite list_lookup_insert_eq by lia. by rewrite obj_with_children_map.
    + destruct (Hdone x x' Hx) as (ox & Hox & Hcopy & Hin); [tauto |].
      exists ox. split; [done |]. split; [| done].
      rewrite list_lookup_insert_ne; [done |].
      intros <-. apply Hne. by eapply Hinj.
  - intros x' o' Hx'. rewrite length_insert. intros Hlook.
    destruct (decide (l' = x')) as [<-|Hne].
    + rewrite list_lookup_insert_eq in Hlook by lia. injection Hlook as <-.
      rewrite obj_with_children_map. unfold obj_in. rewrite obj_children_map.
      apply Forall_fmap. eapply Forall_impl; [exact Hchildren |]. exact Hfresh.
    + rewrite list_lookup_insert_ne in Hlook by done. by eapply Hnew.
Qed.

Lemma deepcopy_fuel_spec (fuel : nat) : forall pending v c,
  copy_inv h0 pending c -> val_in 0 (length h0) v -> length h0 <= fuel + size c.2 ->
  exists v' c', deepcopy_fuel fuel v c = Some (v', c') /\ copy_post h0 pending c v v' c'.
Proof.
  induction fuel as [|fuel IH]; intros pending v c Hinv Hv Hfuel.
  - destruct v as [a|l]; simpl.
    + exists (VAtom a), c. split; [done |]. by split.
    + destruct (c.2 !! l) as [l'|] eqn:Hl.
      * exists (VRef l'), c. split; [done |]. split; [done | done | |].
        -- simpl. by rewrite Hl.
        -- simpl. by rewrite Hl.
      * simpl in Hv. pose proof (memo_has_room _ _ _ Hinv (proj2 Hv) Hl). lia.
  - destruct v as [a|l]; simpl.
    + exists (VAtom a), c. split; [done |]. by split.
    + destruct (c.2 !! l) as [l'|] eqn:Hl.
      * exists (VRef l'), c. split; [done |]. split; [done | done | |].
        -- simpl. by rewrite Hl.
        -- simpl. by rewrite Hl.
      * simpl in Hv. destruct Hv as [_ Hv].
        rewrite (copy_inv_old_lookup _ _ _ Hinv Hv).
        destruct (h0 !! l) as [o|] eqn:Ho;
          [| apply lookup_ge_None in Ho; lia].
        pose proof (copy_inv_enter pending c l o Hinv Hv Hl) as Hinv1.
        assert (c.2 ⊆ <[l := length c.1]> c.2) as Hsub1 by by apply insert_subseteq.
        destruct (copy_list_spec (deepcopy_fuel fuel) (fun x => pending x \/ x = l)
                    (length h0 - fuel)) with (vs := obj_children o)
                    (c := (c.1 ++ [obj_empty o], <[l := length c.1]> c.2))
          as (vs' & c2 & -> & Hinv2 & Hsub2 & -> & Hin2).
        { intros v1 c1 Hc1 Hv1 Hb1. apply IH; [done | done | lia]. }
        { done. }
        { exact (h0_closed _ _ Ho). }
        { simpl. rewrite map_size_insert_None by done. lia. }
        assert (c2.2 !! l = Some (length c.1)) as Hl2.
        { eapply lookup_weaken; [| exact Hsub2]. simpl. apply lookup_insert_eq. }
        eexists _, _. split; [done |]. split; simpl.
        -- by apply (copy_inv_leave pending c2 l (length c.1) o).
        -- by etrans.
        -- by rewrite Hl2.
        -- by rewrite Hl2.
Qed.
End DeepCopy.

(** One call of [deepcopy] on a closed store: the store grows, nothing that
    was there changes, and the new objects are the old ones under the
    renaming [m]. *)
Lemma deepcopy_spec (h : heap) (v : pval) :
  closed h -> val_in 0 (length h) v ->
  exists v' h' m,
    deepcopy h v = Some (v', h') /\
    (exists ext, h' = h ++ ext) /\
    v' = rename m v /\ in_memo m v /\
    (forall l l', m !! l = Some l' ->
       length h <= l' < length h' /\
       exists o, h !! l = Some o /\
                 h' !! l' = Some (obj_map (rename m) o) /\
                 Forall (in_memo m) (obj_children o)) /\
    (forall l' o', length h <= l' -> h' !! l' = Some o' ->
       obj_in (length h) (length h') o').
Proof.
  intros Hclosed Hv.
  assert (copy_inv h (fun _ => False) (h, ∅)) as Hinv.
  { split; simpl.
    - exists []. by rewrite app_nil_r.
    - intros l l' Hl. by rewrite lookup_empty in Hl.
    - intros l1 l2 l' Hl. by rewrite lookup_empty in Hl.
    - intros l l' Hl. by rewrite lookup_empty in Hl.
    - intros l' o' Hl' Hlook. apply lookup_lt_Some in Hlook. lia. }
  destruct (deepcopy_fuel_spec h Hclosed (length h) _ v (h, ∅) Hinv Hv)
    as (v' & c' & Hcopy & [Hinv' _ Hv' Hin]); [simpl; lia |].
  exists v', c'.1, c'.2. unfold deepcopy. rewrite Hcopy.
  split; [done |]. split; [apply (inv_old _ _ _ Hinv') |].
  split; [done |]. split; [done |]. split.
  - intros l l' Hl. split; [by apply (inv_range _ _ _ Hinv') in Hl as [_ ?] |].
    apply (inv_done _ _ _ Hinv' _ _ Hl). tauto.
  - apply (inv_new _ _ _ Hinv').
Qed.

(** ** What a value unfolds to *)

Lemma obj_tree_ext (f g : pval -> tree) (o : obj) :
  Forall (fun v => f v = g v) (obj_children o) -> obj_tree f o = obj_tree g o.
Proof.
  destruct o as [items|items]; simpl; intros Hall; f_equal.
  - induction items as [|v items IH]; simpl; [done |].
    apply Forall_cons in Hall as [-> Hall]. by rewrite IH.
  - induction items as [|[k v] items IH]; simpl; [done |].
    simpl in Hall. apply Forall_cons in Hall as [-> Hall]. by rewrite IH.
Qed.

Lemma obj_tree_map (f : pval -> tree) (r : pval -> pval) (o : obj) :
  obj_tree f (obj_map r o) = obj_tree (fun v => f (r v)) o.
Proof. destruct o as [items|items]; simpl; by rewrite map_map. Qed.

(** A store that grows keeps the structure of what it held. *)
Lemma unfold_extend (h ext : heap) (n : nat) : forall v,
  closed h -> val_in 0 (length h) v ->
  unfold n (h ++ ext) v = unfold n h v.
Proof.
  induction n as [|n IH]; intros v Hclosed Hv; [done |].
  destruct v as [a|l]; simpl; [done |]. simpl in Hv.
  rewrite lookup_app_l by lia.
  destruct (h !! l) as [o|] eqn:Ho; [| done].
  apply obj_tree_ext. eapply Forall_impl; [exact (Hclosed _ _ Ho) |].
  intros v Hv'. by apply IH.
Qed.

(** The copy has the structure of the original. *)
Lemma unfold_renamed (h h' : heap) (m : gmap loc loc) :
  (forall l l', m !! l = Some l' ->
     exists o, h !! l = Some o /\
               h' !! l' = Some (obj_map (rename m) o) /\
               Forall (in_memo m) (obj_children o)) ->
  forall n v, in_memo m v -> unfold n h' (rename m v) = unfold n h v.
Proof.
  intros Hm. induction n as [|n IH]; intros v Hv; [done |].
  destruct v as [a|l]; simpl; [done |].
  destruct Hv as [l' Hl]. rewrite Hl. simpl.
  destruct (Hm _ _ Hl) as (o & -> & -> & Hin).
  rewrite obj_tree_map. apply obj_tree_ext.
  eapply Forall_impl; [exact Hin |]. intros v Hv. by apply IH.
Qed.

Lemma cut_unfold (h : heap) (n k : nat) : forall v,
  cut n (unfold (n + k) h v) = unfold n h v.
Proof.
  induction n as [|n IH]; intros v; [done |].
  destruct v as [a|l]; simpl; [done |].
  destruct (h !! l) as [[items|items]|]; simpl; [| | done]; f_equal.
  - rewrite map_map. apply map_ext. intros v. apply IH.
  - rewrite map_map. apply map_ext. intros [key v]. simpl. by rewrite IH.
Qed.

(** Equal structures at a depth are equal at every smaller depth. *)
Lemma unfold_le (h1 h2 : heap) (v1 v2 : pval) (n n' : nat) :
  n <= n' -> unfold n' h1 v1 = unfold n' h2 v2 -> unfold n h1 v1 = unfold n h2 v2.
Proof.
  intros Hle Heq. replace n' with (n + (n' - n)) in Heq by lia.
  by rewrite <- (cut_unfold h1 n (n' - n)), <- (cut_unfold h2 n (n' - n)), Heq.
Qed.

(** From a value of a region that refers only to itself, one stays in the
    region. *)
Lemma reach_region (h : heap) (lo hi : nat) (v : pval) (x : loc) :
  (forall l o, lo <= l -> h !! l = Some o -> obj_in lo hi o) ->
  val_in lo hi v -> reach h v x -> lo <= x < hi.
Proof.
  intros Hregion Hv Hreach. induction Hreach as [l|l o v l' Ho Hchild _ IH].
  - exact Hv.
  - apply IH. simpl in Hv.
    pose proof (Hregion l o (proj1 Hv) Ho) as Hin.
    unfold obj_in in Hin. rewrite Forall_forall in Hin. by apply Hin.
Qed.

(** ** The report *)

Lemma dict_set_map {K A B} `{EqDecision K} (f : A -> B) (k : K) (v : A)
    (d : list (K * A)) :
  map (fun kv => (kv.1, f kv.2)) (dict_set k v d) =
  dict_set k (f v) (map (fun kv => (kv.1, f kv.2)) d).
Proof.
  induction d as [|[k' v'] d IH]; simpl; [done |].
  destruct (decide (k' = k)); simpl; [done | by rewrite IH].
Qed.

Lemma dict_set_values {K A} `{EqDecision K} (P : A -> Prop) (k : K) (v : A)
    (d : list (K * A)) :
  Forall P (map snd d) -> P v -> Forall P (map snd (dict_set k v d)).
Proof.
  intros Hd Hv. induction d as [|[k' v'] d IH]; simpl.
  - by repeat constructor.
  - simpl in Hd. apply Forall_cons in Hd as [Hv' Hd].
    destruct (decide (k' = k)); simpl; constructor; auto.
Qed.

Lemma length_store_dict_set l k v (h : heap) :
  length (store_dict_set l k v h) = length h.
Proof.
  unfold store_dict_set. destruct (h !! l) as [[items|items]|]; try done.
  apply length_insert.
Qed.

Lemma store_dict_set_ne l l' k v (h : heap) :
  l <> l' -> store_dict_set l k v h !! l' = h !! l'.
Proof.
  intros Hne. unfold store_dict_set. destruct (h !! l) as [[items|items]|]; try done.
  by apply list_lookup_insert_ne.
Qed.

Lemma store_dict_set_eq l k v (h : heap) items :
  h !! l = Some (ODict items) ->
  store_dict_set l k v h !! l = Some (ODict (dict_set k v items)).
Proof.
  intros Hl. unfold store_dict_set. rewrite Hl.
  apply list_lookup_insert_eq. by eapply lookup_lt_Some.
Qed.

Lemma store_dict_set_prefix l k v (base ext : heap) :
  length base <= l ->
  exists ext', store_dict_set l k v (base ++ ext) = base ++ ext'.
Proof.
  intros Hl. unfold store_dict_set.
  destruct ((base ++ ext) !! l) as [[items|items]|]; try by exists ext.
  eexists. by apply insert_app_r_alt.
Qed.

Section Report.
Variable self : GaussianCopulaSynthesizer.
Variable ld : loc.

Lemma report_columns_length pairs : forall h,
  length (report_columns self ld pairs h) = length h + length pairs.
Proof.
  induction pairs as [|[column p] pairs IH]; intros h; simpl; [lia |].
  rewrite IH, length_store_dict_set, length_app. simpl. lia.
Qed.

Lemma report_columns_prefix base pairs : forall ext,
  length base <= ld ->
  exists ext', report_columns self ld pairs (base ++ ext) = base ++ ext'.
Proof.
  induction pairs as [|[column p] pairs IH]; intros ext Hld; simpl; [by exists ext |].
  rewrite <- app_assoc.
  destruct (store_dict_set_prefix ld column (VRef (length (base ++ ext))) base
              (ext ++ [entry_of self column p]) Hld) as (ext1 & Hext1).
  unfold entry_of in Hext1. unfold reported_family in Hext1. rewrite Hext1.
  by apply IH.
Qed.

(** The loop touches the dictionary it fills, and nothing else that exists. *)
Lemma report_columns_frame pairs : forall h l,
  l < length h -> l <> ld -> report_columns self ld pairs h !! l = h !! l.
Proof.
  induction pairs as [|[column p] pairs IH]; intros h l Hl Hne; simpl; [done |].
  rewrite IH; [| rewrite length_store_dict_set, length_app; lia | done].
  rewrite store_dict_set_ne by done. by apply lookup_app_l.
Qed.

(** The structure of the dictionary the loop has filled. *)
Lemma report_columns_tree pairs : forall h entries,
  h !! ld = Some (ODict entries) ->
  exists entries',
    report_columns self ld pairs h !! ld = Some (ODict entries') /\
    forall n,
      map (fun kv => (kv.1, unfold (S (S n)) (report_columns self ld pairs h) kv.2))
        entries' =
      fold_left (fun d ct => dict_set ct.1 (report_entry self ct.1 ct.2) d)
        (map (fun cp => (cp.1, unfold (S n) (report_columns self ld pairs h) cp.2))
           pairs)
        (map (fun kv => (kv.1, unfold (S (S n)) (report_columns self ld pairs h) kv.2))
           entries).
Proof.
  induction pairs as [|[column p] pairs IH]; intros h entries Hld.
  - exists entries. by split.
  - pose proof (lookup_lt_Some _ _ _ Hld) as Hlt. cbn [report_columns].
    set (h1 := h ++ [ODict [(LStr "distribution",
                             VAtom (dict_get_default column (default_distribution self)
                                      (numerical_distributions self)));
                            (LStr "learned_parameters", p)]]).
    set (h2 := store_dict_set ld column (VRef (length h)) h1).
    assert (h2 !! ld = Some (ODict (dict_set column (VRef (length h)) entries))) as Hld2.
    { apply store_dict_set_eq. unfold h1. by rewrite lookup_app_l. }
    destruct (IH h2 _ Hld2) as (entries' & Hld' & Htree).
    exists entries'. split; [done |]. intros n. rewrite Htree.
    rewrite dict_set_map. cbn [map fold_left fst snd]. f_equal. f_equal.
    assert (report_columns self ld pairs h2 !! length h = Some (entry_of self column p))
      as Hentry.
    { rewrite report_columns_frame.
      - unfold h2. rewrite store_dict_set_ne by lia.
        unfold h1. by rewrite lookup_app_r, Nat.sub_diag by lia.
      - unfold h2, h1. rewrite length_store_dict_set, length_app. simpl. lia.
      - lia. }
    change (unfold (S (S n)) (report_columns self ld pairs h2) (VRef (length h)))
      with (match report_columns self ld pairs h2 !! length h with
            | Some o => obj_tree (unfold (S n) (report_columns self ld pairs h2)) o
            | None => TCut
            end).
    by rewrite Hentry.
Qed.

(** The loop keeps a region that refers only to itself so. *)
Lemma report_columns_region lo pairs : forall h,
  lo <= ld < length h ->
  (forall l o, lo <= l -> h !! l = Some o -> obj_in lo (length h) o) ->
  Forall (fun cp => val_in lo (length h) cp.2) pairs ->
  forall l o, lo <= l -> report_columns self ld pairs h !! l = Some o ->
              obj_in lo (length (report_columns self ld pairs h)) o.
Proof.
  induction pairs as [|[column p] pairs IH]; intros h Hld Hregion Hpairs; simpl;
    [done |].
  apply Forall_cons in Hpairs as [Hp Hpairs]. simpl in Hp.
  apply IH.
  - rewrite length_store_dict_set, length_app. simpl. lia.
  - intros l o Hl. rewrite length_store_dict_set, length_app. simpl.
    destruct (decide (ld = l)) as [<-|Hne].
    + unfold store_dict_set. rewrite lookup_app_l by lia.
      destruct (h !! ld) as [[items|items]|] eqn:Hitems.
      * rewrite lookup_app_l, Hitems by lia. intros [= <-].
        eapply obj_in_weaken; [| | by eapply Hregion]; lia.
      * rewrite list_lookup_insert_eq by (rewrite length_app; lia). intros [= <-].
        unfold obj_in. simpl. apply dict_set_values.
        -- pose proof (Hregion _ _ Hl Hitems) as Hin.
           eapply Forall_impl; [exact Hin |].
           intros v. apply val_in_weaken; lia.
        -- simpl. lia.
      * apply lookup_ge_None in Hitems. lia.
    + rewrite store_dict_set_ne by done.
      destruct (decide (l < length h)) as [Hlt|Hge].
      * rewrite lookup_app_l by done. intros Hlook.
        eapply obj_in_weaken; [| | by eapply Hregion]; lia.
      * intros Hlook. apply lookup_lt_Some in Hlook as Hlt.
        rewrite length_app in Hlt. simpl in Hlt.
        assert (l = length h) as -> by lia.
        rewrite lookup_app_r, Nat.sub_diag in Hlook by lia.
        injection Hlook as <-. unfold obj_in. simpl.
        repeat constructor. eapply val_in_weaken; [| | exact Hp]; lia.
  - eapply Forall_impl; [exact Hpairs |].
    intros cp. rewrite length_store_dict_set, length_app. simpl.
    apply val_in_weaken; lia.
Qed.
End Report.

Lemma closed_extend (h ext : heap) :
  closed h ->
  (forall l o, length h <= l -> (h ++ ext) !! l = Some o ->
     obj_in (length h) (length (h ++ ext)) o) ->
  closed (h ++ ext).
Proof.
  intros Hclosed Hnew l o Hlook.
  destruct (decide (l < length h)) as [Hlt|Hge].
  - rewrite lookup_app_l in Hlook by done.
    eapply obj_in_weaken; [| | by eapply Hclosed]; [lia |].
    rewrite length_app. lia.
  - eapply obj_in_weaken; [| | eapply Hnew; [| exact Hlook]]; lia.
Qed.

Lemma zip_map_r {A B C} (f : B -> C) (xs : list A) : forall ys : list B,
  map (fun xy => (xy.1, f xy.2)) (zip xs ys) = zip xs (map f ys).
Proof.
  induction xs as [|x xs IH]; intros [|y ys]; simpl; try done. by rewrite IH.
Qed.

Lemma Forall_zip_r {A B} (P : B -> Prop) (xs : list A) : forall ys : list B,
  Forall P ys -> Forall (fun xy => P xy.2) (zip xs ys).
Proof.
  induction xs as [|x xs IH]; intros [|y ys] Hys; simpl; try constructor.
  - by apply Forall_cons in Hys as [? _].
  - apply IH. by apply Forall_cons in Hys as [_ ?].
Qed.

Lemma map_ext_Forall {A B} (f g : A -> B) (l : list A) :
  Forall (fun x => f x = g x) l -> map f l = map g l.
Proof.
  induction l as [|x l IH]; intros Hall; simpl; [done |].
  apply Forall_cons in Hall as [-> Hall]. by rewrite IH.
Qed.

(** What [get_learned_distributions] does on a fitted instance: it returns
    a new dictionary; the store grows by objects that refer to new objects
    only; and the dictionary unfolds to the report of the model's
    parameters. *)
Lemma get_learned_distributions_spec (self : GaussianCopulaSynthesizer) h model lu us :
  _fitted self = true -> _model self = Some model -> fitted model = true ->
  gm_univariates model = VRef lu -> h !! lu = Some (OList us) ->
  closed h ->
  exists ld ext,
    get_learned_distributions self h = (h ++ ext, Ok (VRef ld)) /\
    length h <= ld < length (h ++ ext) /\
    (forall l o, length h <= l -> (h ++ ext) !! l = Some o ->
       obj_in (length h) (length (h ++ ext)) o) /\
    forall n,
      unfold (S (S (S n))) (h ++ ext) (VRef ld) =
      report_tree self (gm_columns model) (map (unfold (S n) h) us).
Proof.
  intros Hflag Hmodel Hfitted Huniv Hlu Hclosed.
  pose proof (lookup_lt_Some _ _ _ Hlu) as Hlt.
  destruct (deepcopy_spec h (VRef lu) Hclosed) as
    (v' & h1 & m & Hcopy & [ext1 ->] & -> & [lu' Hm_lu] & Hm & Hnew); [simpl; lia |].
  destruct (Hm _ _ Hm_lu) as (Hlu' & o & Ho & Hcopied & Hin).
  rewrite Hlu in Ho. injection Ho as <-. simpl in Hcopied, Hin.
  set (h1 := h ++ ext1) in *.
  set (items := map (rename m) us) in *.
  set (pairs := zip (gm_columns model) items).
  set (h2 := h1 ++ [ODict []]).
  assert (closed h1) as Hclosed1 by by apply closed_extend.
  assert (Forall (val_in (length h) (length h1)) items) as Hitems.
  { unfold items. apply Forall_fmap. eapply Forall_impl; [exact Hin |].
    intros [a|x]; simpl; [done |]. intros [x' Hx]. rewrite Hx. simpl.
    by apply Hm in Hx as [? _]. }
  assert (length h <= length h1) as Hlen1 by (unfold h1; rewrite length_app; lia).
  assert (length h2 = S (length h1)) as Hlen2
      by (unfold h2; rewrite length_app; simpl; lia).
  destruct (report_columns_prefix self (length h1) h pairs (ext1 ++ [ODict []]) Hlen1)
    as (ext & Hext).
  rewrite app_assoc in Hext. fold h1 h2 in Hext.
  destruct (report_columns_prefix self (length h1) h1 pairs [ODict []] (le_n _))
    as (ext' & Hext').
  fold h2 in Hext'.
  assert (h2 !! length h1 = Some (ODict [])) as Hld.
  { unfold h2. by rewrite lookup_app_r, Nat.sub_diag by lia. }
  destruct (report_columns_tree self (length h1) pairs h2 [] Hld)
    as (entries' & Hld' & Htree).
  assert (get_learned_distributions self h = (h ++ ext, Ok (VRef (length h1)))) as Hcall.
  { unfold get_learned_distributions, GaussianMultivariate_to_dict.
    rewrite Hflag, Hmodel, Hfitted, Huniv. cbn [negb].
    rewrite Hcopy. cbn [rename]. rewrite Hm_lu. cbn [default from_option id py_iter].
    rewrite Hcopied. by rewrite <- Hext. }
  exists (length h1), ext. split; [exact Hcall |]. rewrite <- Hext.
  pose proof (report_columns_length self (length h1) pairs h2) as Hlenf.
  split; [lia |]. split.
  - apply report_columns_region; [lia | |].
    + intros l o Hl. rewrite Hlen2. unfold h2.
      destruct (decide (l < length h1)) as [Hl1|Hl1].
      * rewrite lookup_app_l by done. intros Hlook.
        eapply obj_in_weaken; [| | by eapply Hnew]; lia.
      * intros Hlook. apply lookup_lt_Some in Hlook as Hl2.
        rewrite length_app in Hl2. simpl in Hl2.
        assert (l = length h1) as -> by lia.
        rewrite lookup_app_r, Nat.sub_diag in Hlook by lia.
        injection Hlook as <-. constructor.
    + unfold pairs. apply Forall_zip_r. eapply Forall_impl; [exact Hitems |].
      intros v. apply val_in_weaken; lia.
  - intros n.
    change (unfold (S (S (S n))) (report_columns self (length h1) pairs h2)
              (VRef (length h1)))
      with (match report_columns self (length h1) pairs h2 !! length h1 with
            | Some o => obj_tree (unfold (S (S n))
                                    (report_columns self (length h1) pairs h2)) o
            | None => TCut
            end).
    rewrite Hld'. cbn [obj_tree]. rewrite Htree, Hext'. unfold report_tree. f_equal.
    cbn [map]. f_equal. unfold pairs. rewrite zip_map_r. f_equal.
    unfold items. rewrite map_map. apply map_ext_Forall.
    eapply Forall_impl; [exact Hin |]. intros u Hu. cbn beta.
    rewrite unfold_extend.
    + apply (unfold_renamed h h1 m); [| done].
      intros l l' Hl. by apply Hm in Hl as [_ ?].
    + done.
    + destruct u as [a|x]; [done |]. destruct Hu as [x' Hx]. simpl. rewrite Hx.
      simpl. apply Hm in Hx as [? _]. lia.
Qed.

Lemma closedb_closed (h : heap) : closedb h = true -> closed h.
Proof.
  unfold closedb. rewrite forallb_forall. intros Hall l o Hlook.
  apply list_elem_of_lookup_2, list_elem_of_In in Hlook.
  specialize (Hall o Hlook). rewrite forallb_forall in Hall.
  unfold obj_in. rewrite Forall_forall. intros v Hv.
  apply list_elem_of_In in Hv. specialize (Hall v Hv).
  destruct v as [a|x]; simpl in *; [done |].
  apply Nat.ltb_lt in Hall. lia.
Qed.

(** ** What the caller does afterwards *)

Lemma mutated_prefix (owned : loc -> Prop) (base h1 h2 : heap) :
  (forall l, owned l -> length base <= l) ->
  mutated owned h1 h2 ->
  (exists ext, h1 = base ++ ext) -> exists ext, h2 = base ++ ext.
Proof.
  intros Howned Hmut. induction Hmut as [h|h l o h' Hl Hlt Ho _ IH|h o h' Ho _ IH];
    intros [ext ->].
  - by exists ext.
  - apply IH. eexists. apply insert_app_r_alt. by apply Howned.
  - apply IH. exists (ext ++ [o]). by rewrite app_assoc.
Qed.

Lemma mutated_closed (owned : loc -> Prop) (h1 h2 : heap) :
  mutated owned h1 h2 -> closed h1 -> closed h2.
Proof.
  intros Hmut. induction Hmut as [h|h l o h' Hl Hlt Ho _ IH|h o h' Ho _ IH];
    intros Hclosed; [done | |]; apply IH.
  - intros x ox. rewrite length_insert. destruct (decide (l = x)) as [<-|Hne].
    + rewrite list_lookup_insert_eq by done. by intros [= <-].
    + rewrite list_lookup_insert_ne by done. apply Hclosed.
  - intros x ox Hlook. rewrite length_app. simpl.
    destruct (decide (x < length h)) as [Hx|Hx].
    + rewrite lookup_app_l in Hlook by done.
      eapply obj_in_weaken; [| | by eapply Hclosed]; lia.
    + apply lookup_lt_Some in Hlook as Hx'. rewrite length_app in Hx'. simpl in Hx'.
      assert (x = length h) as -> by lia.
      rewrite lookup_app_r, Nat.sub_diag in Hlook by lia. injection Hlook as <-.
      eapply obj_in_weaken; [| | exact Ho]; lia.
Qed.

(** The report on a store that has grown since the fit is the report of the
    parameters as the fit left them. *)
Lemma report_on_extension (self : GaussianCopulaSynthesizer) h model lu us ext :
  _fitted self = true -> _model self = Some model -> fitted model = true ->
  gm_univariates model = VRef lu -> h !! lu = Some (OList us) ->
  closed h -> closed (h ++ ext) ->
  exists ld ext',
    get_learned_distributions self (h ++ ext) = ((h ++ ext) ++ ext', Ok (VRef ld)) /\
    length (h ++ ext) <= ld < length ((h ++ ext) ++ ext') /\
    (forall l o, length (h ++ ext) <= l -> ((h ++ ext) ++ ext') !! l = Some o ->
       obj_in (length (h ++ ext)) (length ((h ++ ext) ++ ext')) o) /\
    forall n,
      unfold (S (S (S n))) ((h ++ ext) ++ ext') (VRef ld) =
      report_tree self (gm_columns model) (map (unfold (S n) h) us).
Proof.
  intros Hflag Hmodel Hfitted Huniv Hlu Hclosed Hclosed'.
  pose proof (lookup_lt_Some _ _ _ Hlu) as Hlt.
  destruct (get_learned_distributions_spec self (h ++ ext) model lu us)
    as (ld & ext' & Hcall & Hld & Hregion & Htree); try done.
  { by rewrite lookup_app_l. }
  exists ld, ext'. split; [done |]. split; [done |]. split; [done |].
  intros n. rewrite Htree. f_equal. apply map_ext_Forall.
  eapply Forall_impl; [exact (Hclosed _ _ Hlu) |].
  intros u Hu. by apply unfold_extend.
Qed.

(** Every column that was zipped has its entry in the report. *)
Lemma report_entries (self : GaussianCopulaSynthesizer) (column : label)
    (pairs : list (label * tree)) : forall acc,
  column ∈ map fst pairs \/
  (exists parameters, dict_get column acc = Some (report_entry self column parameters)) ->
  exists parameters,
    dict_get column
      (fold_left (fun d ct => dict_set ct.1 (report_entry self ct.1 ct.2) d) pairs acc)
    = Some (report_entry self column parameters).
Proof.
  induction pairs as [|[c t] pairs IH]; intros acc Hin; simpl.
  - destruct Hin as [Hin|Hin]; [by apply elem_of_nil in Hin | done].
  - apply IH. destruct (decide (c = column)) as [->|Hne].
    + right. exists t. apply dict_get_set_eq.
    + destruct Hin as [Hin|(parameters & Hacc)].
      * left. simpl in Hin. apply elem_of_cons in Hin as [Heq|Hin]; [congruence | done].
      * right. exists parameters. by rewrite dict_get_set_ne.
Qed.

Lemma fst_zip_same {A B} (xs : list A) : forall ys : list B,
  length xs = length ys -> map fst (zip xs ys) = xs.
Proof.
  induction xs as [|x xs IH]; intros [|y ys] Hlen; simpl in *; try done.
  f_equal. apply IH. lia.
Qed.

Lemma report_tree_entry (self : GaussianCopulaSynthesizer) (columns : list label)
    (parameters : list tree) (column : label) :
  length columns = length parameters -> column ∈ columns ->
  exists t, tree_get column (report_tree self columns parameters)
            = Some (report_entry self column t).
Proof.
  intros Hlen Hin. unfold report_tree. simpl. apply report_entries.
  left. by rewrite fst_zip_same.
Qed.

(** ** The configuration behind the two lookups *)

Lemma dict_get_not_key {K V} `{EqDecision K} (k : K) (d : list (K * V)) :
  k ∉ dict_keys d -> dict_get k d = None.
Proof.
  induction d as [|[k' v'] d IH]; simpl; [done |].
  intros Hnotin. apply not_elem_of_cons in Hnotin as [Hne Hnotin].
  rewrite decide_False by done. by apply IH.
Qed.

(** What the comprehension of [__init__] holds for a key. *)
Lemma validate_fields_get (items : list (label * pyobj)) : forall acc r k,
  NoDup (dict_keys items) ->
  validate_fields items acc = Ok r ->
  match dict_get k items with
  | Some d => exists cls, _validate_distribution d = Ok cls /\ dict_get k r = Some cls
  | None => dict_get k r = dict_get k acc
  end.
Proof.
  induction items as [|[f0 d0] items IH]; intros acc r k Hnd Hok; simpl in *.
  - by injection Hok as <-.
  - apply NoDup_cons in Hnd as [Hnotin Hnd].
    destruct (_validate_distribution d0) as [c0|e] eqn:Hv; simpl in Hok; [| discriminate].
    specialize (IH _ _ k Hnd Hok).
    destruct (decide (f0 = k)) as [->|Hne].
    + rewrite (dict_get_not_key k items Hnotin) in IH.
      exists c0. split; [done |]. by rewrite IH, dict_get_set_eq.
    + destruct (dict_get k items) as [d|]; [done |].
      by rewrite IH, dict_get_set_ne.
Qed.

Lemma prefix_cons_ne (a b : ascii) (s1 s2 : string) :
  a <> b -> String.prefix (String a s1) (String b s2) = false.
Proof. intros Hne. simpl. by destruct (Ascii.ascii_dec a b). Qed.

Lemma replace_from_cons (old new : string) (c : ascii) (rest : string) :
  replace_from old new 0 (String c rest) =
  if String.prefix old (String c rest)
  then String.append new (replace_from old new (String.length old - 1) rest)
  else String c (replace_from old new 0 rest).
Proof. done. Qed.

(** Removing [.value] from a name without a dot and with [.value] at its
    end gives the name. *)
Lemma str_replace_dotless (x : string) :
  Forall (fun c => c <> "."%char) (list_ascii_of_string x) ->
  str_replace ".value" "" (String.append x ".value") = x.
Proof.
  unfold str_replace. induction x as [|c x IH]; intros Hdots; [done |].
  simpl in Hdots. apply Forall_cons in Hdots as [Hc Hdots].
  change (String.append (String c x) ".value")
    with (String c (String.append x ".value")).
  rewrite replace_from_cons.
  change ".value" with (String "."%char "value") at 1.
  rewrite prefix_cons_ne by done. by rewrite IH.
Qed.

(** ** After a fit: the claims *)

(** The first report and any later one, on a store that kept what the fit
    left. *)
Lemma report_stable (self : GaussianCopulaSynthesizer) (h : heap) :
  fitted_in self h ->
  exists model us,
    _model self = Some model /\ length us = length (gm_columns model) /\
    forall ext, closed (h ++ ext) ->
      exists ld ext',
        get_learned_distributions self (h ++ ext) = ((h ++ ext) ++ ext', Ok (VRef ld)) /\
        closed ((h ++ ext) ++ ext') /\
        (forall x, reach ((h ++ ext) ++ ext') (VRef ld) x ->
           length (h ++ ext) <= x < length ((h ++ ext) ++ ext')) /\
        forall n,
          unfold (S (S (S n))) ((h ++ ext) ++ ext') (VRef ld) =
          report_tree self (gm_columns model) (map (unfold (S n) h) us).
Proof.
  intros (Hflag & model & lu & us & Hmodel & Hfitted & Huniv & Hlu & Hlen & Hclosed).
  exists model, us. split; [done |]. split; [done |]. intros ext Hclosed'.
  destruct (report_on_extension self h model lu us ext)
    as (ld & ext' & Hcall & Hld & Hregion & Htree); try done.
  exists ld, ext'. split; [done |].
  split; [apply closed_extend; [exact Hclosed' | exact Hregion] |].
  split; [| done].
  intros x Hreach.
  exact (reach_region _ _ _ (VRef ld) x Hregion Hld Hreach).
Qed.

(** The loop of the report leaves the names it does not come across as they
    are. *)
Lemma report_fold_keep (self : GaussianCopulaSynthesizer) (column : label)
    (pairs : list (label * tree)) : forall acc,
  column ∉ map fst pairs ->
  dict_get column
    (fold_left (fun d ct => dict_set ct.1 (report_entry self ct.1 ct.2) d) pairs acc)
  = dict_get column acc.
Proof.
  induction pairs as [|[c t] pairs IH]; intros acc Hnotin; simpl; [done |].
  simpl in Hnotin. apply not_elem_of_cons in Hnotin as [Hne Hnotin].
  rewrite IH by done. by rewrite dict_get_set_ne.
Qed.

(** The entry of a column comes from one of its pairs. *)
Lemma report_fold_entry (self : GaussianCopulaSynthesizer) (column : label)
    (pairs : list (label * tree)) : forall acc,
  column ∈ map fst pairs ->
  exists i t,
    pairs !! i = Some (column, t) /\
    dict_get column
      (fold_left (fun d ct => dict_set ct.1 (report_entry self ct.1 ct.2) d) pairs acc)
    = Some (report_entry self column t).
Proof.
  induction pairs as [|[c t] pairs IH]; intros acc Hin; simpl in *.
  - by apply elem_of_nil in Hin.
  - destruct (decide (column ∈ map fst pairs)) as [Hlater|Hlast].
    + destruct (IH (dict_set c (report_entry self c t) acc) Hlater)
        as (i & t' & Hi & Hget).
      by exists (S i), t'.
    + apply elem_of_cons in Hin as [->|Hin]; [| done].
      exists 0, t. split; [done |].
      rewrite report_fold_keep by done. apply dict_get_set_eq.
Qed.

(** The entry of a column of the report holds the parameters that the model
    has for the column at one of its places. *)
Lemma report_tree_parameters (self : GaussianCopulaSynthesizer) (columns : list label)
    (h : heap) (us : list pval) (n : nat) (column : label) :
  length us = length columns -> column ∈ columns ->
  exists i u,
    columns !! i = Some column /\ us !! i = Some u /\
    tree_get column (report_tree self columns (map (unfold n h) us)) =
      Some (report_entry self column (unfold n h u)).
Proof.
  intros Hlen Hin. unfold report_tree. simpl.
  destruct (report_fold_entry self column (zip columns (map (unfold n h) us)) [])
    as (i & t & Hi & Hget).
  { rewrite fst_zip_same; [done |]. by rewrite length_map. }
  apply lookup_zip_with_Some in Hi as (c & t' & Heq & Hc & Ht).
  injection Heq as <- <-.
  change (map (unfold n h) us) with (unfold n h <$> us) in Ht.
  rewrite list_lookup_fmap in Ht.
  destruct (us !! i) as [u|] eqn:Hu; [| done].
  injection Ht as <-. by exists i, u.
Qed.

(** C5: on a fitted instance, [get_learned_distributions] returns a
    dictionary with an entry for every column of the model, naming the
    reported family and holding, as the learned parameters, the structure
    that the model's parameters of that column have in the store of before
    the call.  Nothing that was in the store before the call is changed by
    it, and nothing that was there can be reached from what it returns: the
    parameters it returns are a copy.  Whatever the caller then does to the
    objects of the returned structure and to objects of its own, the store
    of before the call, the model's parameters with it, stays as it was, and
    a later call returns the structure that the first call returned. *)
Theorem learned_distributions_are_a_copy (self : GaussianCopulaSynthesizer) (h : heap) :
  fitted_in self h ->
  exists r h',
    get_learned_distributions self h = (h', Ok r) /\
    (forall model lu us column n,
       _model self = Some model -> gm_univariates model = VRef lu ->
       h !! lu = Some (OList us) -> column ∈ gm_columns model ->
       exists i u,
         gm_columns model !! i = Some column /\ us !! i = Some u /\
         tree_get column (unfold (S (S (S n))) h' r) =
           Some (TDict [(LStr "distribution", TAtom (reported_family self column));
                        (LStr "learned_parameters", unfold (S n) h u)])) /\
    (exists ext, h' = h ++ ext) /\
    (forall x, reach h' r x -> length h <= x) /\
    forall h'',
      mutated (fun x => reach h' r x \/ length h' <= x) h' h'' ->
      (exists ext'', h'' = h ++ ext'') /\
      exists r2 h3,
        get_learned_distributions self h'' = (h3, Ok r2) /\
        forall n, unfold n h3 r2 = unfold n h' r.
Proof.
  intros Hfit.
  pose proof Hfit as (Hflag & model0 & lu0 & us0 & Hmodel0 & Hfitted0 & Huniv0 & Hlu0
                      & Hlen0 & Hclosed).
  destruct (report_stable self h Hfit) as (model & us & Hmodel & Hlen & Hreport).
  destruct (Hreport []) as (ld & ext & Hcall & Hclosed1 & Hreach & Htree).
  { by rewrite app_nil_r. }
  rewrite app_nil_r in *.
  exists (VRef ld), (h ++ ext). split; [done |]. split; [| split; [| split]].
  - intros model' lu us' column n Hmodel' Huniv Hlu Hin.
    assert (model' = model0) as -> by congruence.
    assert (lu = lu0) as -> by congruence.
    assert (us' = us0) as -> by congruence.
    destruct (get_learned_distributions_spec self h model0 lu0 us0)
      as (ld' & ext' & Hcall' & _ & _ & Htree'); try done.
    assert (ld' = ld /\ ext' = ext) as [-> ->].
    { rewrite Hcall in Hcall'. injection Hcall' as Hext <-.
      split; [done |]. by apply app_inv_head in Hext. }
    rewrite Htree'. by apply report_tree_parameters.
  - by exists ext.
  - intros x Hx. by apply Hreach in Hx as [? _].
  - intros h'' Hmut.
    assert (exists ext'', h'' = h ++ ext'') as [ext'' ->].
    { eapply mutated_prefix; [| exact Hmut | by exists ext].
      intros l [Hl|Hl]; [by apply Hreach in Hl as [? _] |].
      rewrite length_app in Hl. lia. }
    split; [by exists ext'' |].
    destruct (Hreport ext'') as (ld2 & ext2 & Hcall2 & _ & _ & Htree2).
    { by eapply mutated_closed. }
    exists (VRef ld2), ((h ++ ext'') ++ ext2). split; [done |].
    intros n. apply (unfold_le _ _ _ _ n (S (S (S n)))); [lia |].
    by rewrite Htree, Htree2.
Qed.

Lemma learned_distributions_are_a_copy_witness :
  exists r h',
    get_learned_distributions fitted_example fitted_example_store = (h', Ok r) /\
    (forall model lu us column n,
       _model fitted_example = Some model -> gm_univariates model = VRef lu ->
       fitted_example_store !! lu = Some (OList us) -> column ∈ gm_columns model ->
       exists i u,
         gm_columns model !! i = Some column /\ us !! i = Some u /\
         tree_get column (unfold (S (S (S n))) h' r) =
           Some (TDict [(LStr "distribution",
                         TAtom (reported_family fitted_example column));
                        (LStr "learned_parameters",
                         unfold (S n) fitted_example_store u)])) /\
    (exists ext, h' = fitted_example_store ++ ext) /\
    (forall x, reach h' r x -> length fitted_example_store <= x) /\
    forall h'',
      mutated (fun x => reach h' r x \/ length h' <= x) h' h'' ->
      (exists ext'', h'' = fitted_example_store ++ ext'') /\
      exists r2 h3,
        get_learned_distributions fitted_example h'' = (h3, Ok r2) /\
        forall n, unfold n h3 r2 = unfold n h' r.
Proof.
  apply learned_distributions_are_a_copy.
  split; [reflexivity |].
  eexists _, 2, _. split; [reflexivity |]. split; [reflexivity |].
  split; [reflexivity |]. split; [reflexivity |]. split; [reflexivity |].
  apply closedb_closed. reflexivity.
Defined.

(** C6: on a fitted instance, two calls of [get_learned_distributions] in a
    row both return, and what the second returns has, to every depth, the
    structure of what the first returned, which the second call left as it
    was. *)
Theorem learned_distributions_idempotent (self : GaussianCopulaSynthesizer) (h : heap) :
  fitted_in self h ->
  exists r1 h1 r2 h2,
    get_learned_distributions self h = (h1, Ok r1) /\
    get_learned_distributions self h1 = (h2, Ok r2) /\
    forall n, unfold n h2 r2 = unfold n h1 r1 /\ unfold n h2 r1 = unfold n h1 r1.
Proof.
  intros Hfit. pose proof Hfit as (_ & _ & _ & _ & _ & _ & _ & _ & _ & Hclosed).
  destruct (report_stable self h Hfit) as (model & us & Hmodel & Hlen & Hreport).
  destruct (Hreport []) as (ld & ext & Hcall & Hclosed1 & Hreach & Htree).
  { by rewrite app_nil_r. }
  rewrite app_nil_r in *.
  destruct (Hreport ext Hclosed1) as (ld2 & ext2 & Hcall2 & _ & _ & Htree2).
  exists (VRef ld), (h ++ ext), (VRef ld2), ((h ++ ext) ++ ext2).
  split; [done |]. split; [done |]. intros n. split.
  - apply (unfold_le _ _ _ _ n (S (S (S n)))); [lia |]. by rewrite Htree, Htree2.
  - apply unfold_extend; [done |]. simpl.
    pose proof (Hreach ld (reach_here _ _)). lia.
Qed.

Lemma learned_distributions_idempotent_witness :
  exists r1 h1 r2 h2,
    get_learned_distributions fitted_example fitted_example_store = (h1, Ok r1) /\
    get_learned_distributions fitted_example h1 = (h2, Ok r2) /\
    forall n, unfold n h2 r2 = unfold n h1 r1 /\ unfold n h2 r1 = unfold n h1 r1.
Proof.
  apply learned_distributions_idempotent.
  split; [reflexivity |].
  eexists _, 2, _. split; [reflexivity |]. split; [reflexivity |].
  split; [reflexivity |]. split; [reflexivity |]. split; [reflexivity |].
  apply closedb_closed. reflexivity.
Defined.

(** With an override under [x] and another under [x.value], the report names,
    for the column [x.value], the override configured under [x.value], which
    is not the default, and [_fit] gives the column the class of that
    override, not the class of the override under [x]. *)
Lemma override_under_both_names_is_reported :
  __init__ no_metadata true true
    (ADict [(LStr "x", PyStr "norm"); (LStr "x.value", PyStr "gamma")]) PyNone =
    Ok (configured no_metadata [(LStr "x", "norm"); (LStr "x.value", "gamma")]) /\
  _fitted both_names_example = true /\
  dict_get (LStr "x") (numerical_distributions both_names_example) =
    Some (PyStr "norm") /\
  default_distribution both_names_example = PyStr "beta" /\
  (exists r h',
     get_learned_distributions both_names_example both_names_store = (h', Ok r) /\
     tree_get (LStr "x.value") (unfold 3 h' r) =
       Some (TDict [(LStr "distribution", TAtom (PyStr "gamma"));
                    (LStr "learned_parameters",
                     unfold 1 both_names_store (VRef 0))])) /\
  exists model,
    _model (_fit toy_fit both_names_example x_value_frame both_names_store).1.1 =
      Some model /\
    dict_get (LStr "x.value") (distribution model) = Some GammaUnivariate /\
    dict_get (LStr "x") (distribution model) = Some GaussianUnivariate.
Proof.
  split; [reflexivity |]. split; [reflexivity |]. split; [reflexivity |].
  split; [reflexivity |]. split.
  - eexists _, _. split; vm_compute; reflexivity.
  - eexists. split; [reflexivity |]. split; reflexivity.
Qed.

(** C3: on a fitted instance, the family [get_learned_distributions] reports
    for a column is looked up under the column's name as it is.  So when an
    override is configured under [x] and none under [x.value], and removing
    [.value] from [x.value] gives [x], the family reported for the column
    [x.value] is the default one, while [_fit], on a frame with that column,
    gives it the family of the override. *)
Theorem report_uses_unmodified_name fit_numerics (self : GaussianCopulaSynthesizer)
    (h : heap) :
  fitted_in self h ->
  (exists r h',
     get_learned_distributions self h = (h', Ok r) /\
     forall model column n,
       _model self = Some model -> column ∈ gm_columns model ->
       exists parameters,
         tree_get column (unfold (S (S (S n))) h' r) =
           Some (TDict [(LStr "distribution",
                         TAtom (dict_get_default column (default_distribution self)
                                  (numerical_distributions self)));
                        (LStr "learned_parameters", parameters)])) /\
  forall x name cls data h0,
    NoDup (dict_keys (numerical_distributions self)) ->
    validate_fields (numerical_distributions self) [] =
      Ok (_numerical_distributions self) ->
    dict_get (LStr x) (numerical_distributions self) = Some (PyStr name) ->
    dict_get name _DISTRIBUTIONS = Some cls ->
    dict_get (LStr (String.append x ".value")) (numerical_distributions self) = None ->
    str_replace ".value" "" (String.append x ".value") = x ->
    Forall (fun column => exists s, column = LStr s) (columns data) ->
    LStr (String.append x ".value") ∈ columns data ->
    dict_get_default (LStr (String.append x ".value")) (default_distribution self)
      (numerical_distributions self) = default_distribution self /\
    exists model,
      _model (_fit fit_numerics self data h0).1.1 = Some model /\
      dict_get (LStr (String.append x ".value")) (distribution model) = Some cls.
Proof.
  intros Hfit. split.
  - destruct (report_stable self h Hfit) as (model & us & Hmodel & Hlen & Hreport).
    destruct Hfit as (_ & _ & _ & _ & _ & _ & _ & _ & _ & Hclosed).
    destruct (Hreport []) as (ld & ext & Hcall & _ & _ & Htree).
    { by rewrite app_nil_r. }
    rewrite app_nil_r in *.
    exists (VRef ld), (h ++ ext). split; [done |].
    intros model' column n Hmodel' Hin.
    assert (model' = model) as -> by congruence.
    rewrite Htree. apply report_tree_entry; [| done]. by rewrite length_map.
  - intros x name cls data h0 Hnd Hvalid Hx Hname Hxv Hreplace Hstr Hin. split.
    + unfold dict_get_default. by rewrite Hxv.
    + destruct (fit_distribution_spec fit_numerics self data h0 Hstr)
        as (model & Hmodel & Hfamily).
      exists model. split; [done |]. rewrite (Hfamily _ Hin). f_equal.
      unfold family_of.
      pose proof (validate_fields_get _ _ _ (LStr (String.append x ".value"))
                    Hnd Hvalid) as Hown.
      rewrite Hxv in Hown. simpl in Hown. rewrite Hown, Hreplace.
      pose proof (validate_fields_get _ _ _ (LStr x) Hnd Hvalid) as Hover.
      rewrite Hx in Hover. destruct Hover as (cls' & Hcls' & Hget).
      unfold dict_get_default. rewrite Hget.
      rewrite (validate_recognized name cls Hname) in Hcls'. congruence.
Qed.

Lemma report_uses_unmodified_name_witness :
  (exists r h',
     get_learned_distributions fitted_example fitted_example_store = (h', Ok r) /\
     forall model column n,
       _model fitted_example = Some model -> column ∈ gm_columns model ->
       exists parameters,
         tree_get column (unfold (S (S (S n))) h' r) =
           Some (TDict [(LStr "distribution",
                         TAtom (dict_get_default column
                                  (default_distribution fitted_example)
                                  (numerical_distributions fitted_example)));
                        (LStr "learned_parameters", parameters)])) /\
  dict_get_default (LStr "x.value") (default_distribution fitted_example)
    (numerical_distributions fitted_example) = PyStr "beta" /\
  exists model,
    _model (_fit toy_fit fitted_example x_value_frame []).1.1 = Some model /\
    dict_get (LStr "x.value") (distribution model) = Some GaussianUnivariate.
Proof.
  destruct (report_uses_unmodified_name toy_fit fitted_example fitted_example_store)
    as [Hreport Hasym].
  { split; [reflexivity |].
    eexists _, 2, _. split; [reflexivity |]. split; [reflexivity |].
    split; [reflexivity |]. split; [reflexivity |]. split; [reflexivity |].
    apply closedb_closed. reflexivity. }
  split; [exact Hreport |].
  apply (Hasym "x" "norm" GaussianUnivariate x_value_frame []); try reflexivity.
  - apply NoDup_singleton.
  - repeat (apply List.Forall_cons; [by eexists |]). apply List.Forall_nil.
  - apply list_elem_of_here.
Defined.

(** * Further properties of the wrapper *)

(** ** [_validate_distribution] and [__init__] *)

Lemma family_names_recognized (name : string) :
  name ∈ family_names -> exists cls, dict_get name _DISTRIBUTIONS = Some cls.
Proof.
  unfold family_names. intros Hin.
  repeat (apply elem_of_cons in Hin as [->|Hin]; [by eexists |]).
  by apply elem_of_nil in Hin.
Qed.

(** X1: [_validate_distribution] returns a class exactly for a string that
    is a key of [_DISTRIBUTIONS], the class the table gives it; it returns
    normally exactly for the six family names; and whatever it rejects is in
    the [ValueError] it raises. *)
Theorem validate_distribution_characterised (d : pyobj) :
  (forall cls,
     _validate_distribution d = Ok cls <->
     exists name, d = PyStr name /\ dict_get name _DISTRIBUTIONS = Some cls) /\
  (raised (_validate_distribution d) = false <->
     exists name, d = PyStr name /\ name ∈ family_names) /\
  (forall e, _validate_distribution d = Raise e ->
     e = ValueError (InvalidSpecification d)).
Proof.
  split; [| split].
  - intros cls. split; [apply validate_Ok_inv |].
    intros (name & -> & Hget). by apply validate_recognized.
  - split.
    + destruct (_validate_distribution d) as [cls|e] eqn:Hv; [| discriminate].
      intros _. apply validate_Ok_inv in Hv as (name & -> & Hget).
      exists name. split; [done |]. by eapply recognized_names.
    + intros (name & -> & Hin).
      destruct (family_names_recognized name Hin) as (cls & Hget).
      by rewrite (validate_recognized name cls Hget).
  - apply validate_Raise_inv.
Qed.

Lemma validate_fields_total items : forall acc,
  (forall field d, (field, d) ∈ items -> acceptable d) ->
  exists r, validate_fields items acc = Ok r.
Proof.
  induction items as [|[f0 d0] items IH]; intros acc Hall; simpl; [by eexists |].
  destruct (Hall f0 d0) as (cls & ->); [apply list_elem_of_here |]. simpl.
  apply IH. intros field d Hin. by eapply Hall, list_elem_of_further.
Qed.

Lemma validate_fields_first_invalid good : forall acc field d rest e,
  Forall (fun kv => acceptable kv.2) good ->
  _validate_distribution d = Raise e ->
  validate_fields (good ++ (field, d) :: rest) acc = Raise e.
Proof.
  induction good as [|[f0 d0] good IH]; intros acc field d rest e Hgood Hbad; simpl.
  - by rewrite Hbad.
  - apply Forall_cons in Hgood as [(cls & Hcls) Hgood]. simpl in Hcls.
    rewrite Hcls. simpl. by apply IH.
Qed.

(** X2: construction succeeds exactly when [numerical_distributions] is falsy
    or a dictionary, the default distribution (or [beta], when it is falsy)
    is acceptable, and so is every override of the dictionary. *)
Theorem init_succeeds_iff md emm er nd dd :
  (exists self, __init__ md emm er nd dd = Ok self) <->
  (arg_truthy nd = false \/ isinstance_dict nd = true) /\
  acceptable (or_beta dd) /\
  (forall field d, (field, d) ∈ or_empty_dict nd -> acceptable d).
Proof.
  split.
  - intros (self & Hok).
    apply init_Ok_inv in Hok as (Hguard & _ & _ & _ & Hdefault & Hfields & _).
    split; [| split].
    + destruct (arg_truthy nd); [right | by left].
      by destruct (isinstance_dict nd).
    + by eexists.
    + intros field d Hin. by eapply validate_fields_Ok_inv.
  - intros (Hguard & (cls & Hdefault) & Hfields).
    rewrite init_unfold by (destruct Hguard as [-> | ->]; [done | apply andb_false_r]).
    rewrite Hdefault. simpl.
    destruct (validate_fields_total (or_empty_dict nd) [] Hfields) as (r & ->).
    simpl. by eexists.
Qed.

(** X3: [__init__] checks the default distribution before the overrides and
    the overrides in the order of the dictionary: when an override is not
    acceptable and those before it are, the [ValueError] names that override
    if the default is acceptable, and names the default if it is not. *)
Theorem init_reports_first_invalid md emm er dd good field d rest :
  Forall (fun kv => acceptable kv.2) good ->
  raised (_validate_distribution d) = true ->
  (acceptable (or_beta dd) ->
   __init__ md emm er (ADict (good ++ (field, d) :: rest)) dd =
     Raise (ValueError (InvalidSpecification d))) /\
  (raised (_validate_distribution (or_beta dd)) = true ->
   __init__ md emm er (ADict (good ++ (field, d) :: rest)) dd =
     Raise (ValueError (InvalidSpecification (or_beta dd)))).
Proof.
  intros Hgood Hbad.
  destruct (_validate_distribution d) as [cls|e] eqn:Hd; [discriminate |].
  pose proof (validate_Raise_inv _ _ Hd) as ->.
  split.
  - intros (cls & Hdefault).
    rewrite init_unfold by (simpl; apply andb_false_r).
    rewrite Hdefault. simpl.
    by rewrite (validate_fields_first_invalid good [] field d rest _ Hgood Hd).
  - intros Hdefault.
    rewrite init_unfold by (simpl; apply andb_false_r).
    destruct (_validate_distribution (or_beta dd)) as [cls|e] eqn:Hdd; [discriminate |].
    by rewrite (validate_Raise_inv _ _ Hdd).
Qed.

Lemma init_reports_first_invalid_witness :
  __init__ no_metadata true true
    (ADict ([(LStr "age", PyStr "norm")] ++
            (LStr "fare", PyStr "normal") :: [(LStr "size", PyStr "nrm")])) PyNone =
    Raise (ValueError (InvalidSpecification (PyStr "normal"))).
Proof.
  refine (proj1 (init_reports_first_invalid no_metadata true true PyNone
                   [(LStr "age", PyStr "norm")] (LStr "fare") (PyStr "normal")
                   [(LStr "size", PyStr "nrm")] _ _) _).
  - apply List.Forall_cons; [by exists GaussianUnivariate | apply List.Forall_nil].
  - reflexivity.
  - by exists BetaUnivariate.
Defined.

Lemma dict_keys_set_new {K V} `{EqDecision K} (k : K) (v : V) (d : list (K * V)) :
  k ∉ dict_keys d -> dict_keys (dict_set k v d) = dict_keys d ++ [k].
Proof.
  induction d as [|[k' v'] d IH]; simpl; [done |].
  intros Hnotin. apply not_elem_of_cons in Hnotin as [Hne Hnotin].
  rewrite decide_False by done. simpl. f_equal. by apply IH.
Qed.

Lemma validate_fields_keys items : forall acc r,
  NoDup (dict_keys acc ++ dict_keys items) ->
  validate_fields items acc = Ok r ->
  dict_keys r = dict_keys acc ++ dict_keys items.
Proof.
  induction items as [|[f0 d0] items IH]; intros acc r Hnd Hok; simpl in *.
  - injection Hok as <-. by rewrite app_nil_r.
  - destruct (_validate_distribution d0) as [c0|e]; simpl in Hok; [| discriminate].
    assert (f0 ∉ dict_keys acc) as Hfresh.
    { apply NoDup_app in Hnd as (_ & Hdisj & _). intros Hin.
      apply (Hdisj _ Hin). apply list_elem_of_here. }
    rewrite (IH (dict_set f0 c0 acc) r); [| | exact Hok].
    + rewrite dict_keys_set_new by done. by rewrite <- app_assoc.
    + rewrite dict_keys_set_new by done. by rewrite <- app_assoc.
Qed.

(** X4: an instance constructed from a dictionary of overrides keeps the
    dictionary; its validated overrides have the same fields in the same
    order, each with the class that [_DISTRIBUTIONS] gives the field's
    family name; its validated default is the class of its default name; it
    holds no model. *)
Theorem init_classes_mirror_names md emm er items dd self :
  NoDup (dict_keys items) ->
  __init__ md emm er (ADict items) dd = Ok self ->
  numerical_distributions self = items /\
  dict_keys (_numerical_distributions self) = dict_keys items /\
  (forall field d,
     dict_get field items = Some d ->
     exists name cls,
       d = PyStr name /\ dict_get name _DISTRIBUTIONS = Some cls /\
       dict_get field (_numerical_distributions self) = Some cls) /\
  (exists name,
     default_distribution self = PyStr name /\
     dict_get name _DISTRIBUTIONS = Some (_default_distribution self)) /\
  _model self = None.
Proof.
  intros Hnd Hok.
  apply init_Ok_inv in Hok as (_ & _ & Hdd & Hitems & Hdefault & Hfields & Hmodel).
  simpl in Hitems, Hfields.
  split; [done |]. split; [| split; [| split]].
  - by rewrite (validate_fields_keys items [] _ Hnd Hfields).
  - intros field d Hget.
    pose proof (validate_fields_get items [] _ field Hnd Hfields) as Hfield.
    rewrite Hget in Hfield. destruct Hfield as (cls & Hcls & Hprivate).
    apply validate_Ok_inv in Hcls as (name & -> & Hname).
    by exists name, cls.
  - apply validate_Ok_inv in Hdefault as (name & Hname & Hget).
    exists name. by rewrite Hdd.
  - done.
Qed.

Lemma init_classes_mirror_names_witness :
  numerical_distributions
    (configured no_metadata [(LStr "age", "norm"); (LStr "fare", "gamma")]) =
    [(LStr "age", PyStr "norm"); (LStr "fare", PyStr "gamma")] /\
  dict_keys (_numerical_distributions
               (configured no_metadata [(LStr "age", "norm"); (LStr "fare", "gamma")])) =
    dict_keys [(LStr "age", PyStr "norm"); (LStr "fare", PyStr "gamma")] /\
  (forall field d,
     dict_get field [(LStr "age", PyStr "norm"); (LStr "fare", PyStr "gamma")] = Some d ->
     exists name cls,
       d = PyStr name /\ dict_get name _DISTRIBUTIONS = Some cls /\
       dict_get field
         (_numerical_distributions
            (configured no_metadata [(LStr "age", "norm"); (LStr "fare", "gamma")])) =
         Some cls) /\
  (exists name,
     default_distribution
       (configured no_metadata [(LStr "age", "norm"); (LStr "fare", "gamma")]) =
       PyStr name /\
     dict_get name _DISTRIBUTIONS =
       Some (_default_distribution
               (configured no_metadata [(LStr "age", "norm"); (LStr "fare", "gamma")]))) /\
  _model (configured no_metadata [(LStr "age", "norm"); (LStr "fare", "gamma")]) = None.
Proof.
  apply (init_classes_mirror_names no_metadata true true
           [(LStr "age", PyStr "norm"); (LStr "fare", PyStr "gamma")] PyNone).
  - apply NoDup_cons. split; [| apply NoDup_singleton].
    intros Hin. apply list_elem_of_singleton in Hin. discriminate.
  - reflexivity.
Defined.

Lemma init_succeeds_iff_witness :
  exists self,
    __init__ no_metadata true true (ADict [(LStr "age", PyStr "norm")]) (PyStr "gamma") =
      Ok self.
Proof.
  apply (proj2 (init_succeeds_iff no_metadata true true
                  (ADict [(LStr "age", PyStr "norm")]) (PyStr "gamma"))).
  split; [by right |]. split; [by exists GammaUnivariate |].
  intros field d Hin. apply list_elem_of_singleton in Hin. injection Hin as -> ->.
  by exists GaussianUnivariate.
Defined.

(** ** [_fit] *)

Section AssignmentKeys.
Variable self : GaussianCopulaSynthesizer.

(** The loop adds keys, and only string ones. *)
Lemma assign_columns_extends cols : forall nd a,
  assign_columns self cols nd = Ok a ->
  (forall k cls, dict_get k nd = Some cls -> dict_get k a = Some cls) /\
  (forall z, dict_get (LInt z) a = dict_get (LInt z) nd) /\
  (forall k, is_Some (dict_get k a) -> is_Some (dict_get k nd) \/ k ∈ cols).
Proof.
  induction cols as [|column cols IH]; intros nd a Hok; simpl in Hok.
  - injection Hok as <-. split; [done |]. split; [done |]. by left.
  - destruct (dict_contains column nd) eqn:Hc.
    + destruct (IH _ _ Hok) as (Hext & Hint & Hkeys).
      split; [done |]. split; [done |].
      intros k Hk. destruct (Hkeys k Hk); [by left | right; by apply list_elem_of_further].
    + destruct column as [s|z]; [| discriminate].
      apply dict_contains_false in Hc.
      destruct (IH _ _ Hok) as (Hext & Hint & Hkeys).
      split; [| split].
      * intros k cls Hk. apply Hext. rewrite dict_get_set_ne; [done |].
        intros <-. congruence.
      * intros z. rewrite Hint. by rewrite dict_get_set_ne.
      * intros k Hk. destruct (Hkeys k Hk) as [Hin|Hin].
        -- destruct (decide (LStr s = k)) as [<-|Hne].
           ++ right. apply list_elem_of_here.
           ++ left. by rewrite dict_get_set_ne in Hin.
        -- right. by apply list_elem_of_further.
Qed.

(** With every label a string or a configured field, the loop ends
    normally and gives every column its family. *)
Lemma assign_columns_labels (cols : list label) : forall nd,
  assignment_inv self nd ->
  (forall z, dict_get (LInt z) nd = dict_get (LInt z) (_numerical_distributions self)) ->
  existsb (unconfigured_label self) cols = false ->
  exists a,
    assign_columns self cols nd = Ok a /\
    assignment_inv self a /\
    (forall column, column ∈ cols -> is_Some (dict_get column a)).
Proof.
  induction cols as [|column cols IH]; intros nd Hinv Hint Hlabels.
  - exists nd. split; [done |]. split; [done |].
    intros column Hin. by apply elem_of_nil in Hin.
  - simpl in Hlabels. apply orb_false_elim in Hlabels as [Hlabel Hlabels]. simpl.
    destruct (dict_contains column nd) eqn:Hc.
    + destruct (IH nd Hinv Hint Hlabels) as (a & Hok & Hinv' & Hcov).
      exists a. split; [done |]. split; [done |].
      intros c Hin. apply elem_of_cons in Hin as [->|Hin]; [| by apply Hcov].
      apply dict_contains_true in Hc as [cls Hc].
      destruct (assign_columns_extends _ _ _ Hok) as (Hext & _ & _).
      exists cls. by apply Hext.
    + destruct column as [s|z].
      * apply dict_contains_false in Hc.
        destruct (IH _ (assignment_inv_step self nd s Hinv Hc)) as (a & Hok & Hinv' & Hcov);
          [| done |].
        { intros z. by rewrite dict_get_set_ne. }
        exists a. split; [done |]. split; [done |].
        intros c Hin. apply elem_of_cons in Hin as [->|Hin]; [| by apply Hcov].
        destruct (assign_columns_extends _ _ _ Hok) as (Hext & _ & _).
        eexists. apply Hext. apply dict_get_set_eq.
      * exfalso. simpl in Hlabel. apply negb_false_iff in Hlabel.
        apply dict_contains_true in Hlabel as [cls Hlabel].
        apply dict_contains_false in Hc. rewrite Hint in Hc. congruence.
Qed.

(** With a label that is neither, the loop raises. *)
Lemma assign_columns_bad_label (cols : list label) : forall nd,
  (forall z, dict_get (LInt z) nd = dict_get (LInt z) (_numerical_distributions self)) ->
  existsb (unconfigured_label self) cols = true ->
  assign_columns self cols nd =
    Raise (AttributeError "'int' object has no attribute 'replace'").
Proof.
  induction cols as [|column cols IH]; intros nd Hint Hlabels; [discriminate |].
  simpl in Hlabels. simpl.
  destruct (unconfigured_label self column) eqn:Hlabel.
  - destruct column as [s|z]; [discriminate |]. simpl in Hlabel.
    apply negb_true_iff, dict_contains_false in Hlabel.
    assert (dict_contains (LInt z) nd = false) as ->; [| done].
    apply dict_contains_false. by rewrite Hint.
  - simpl in Hlabels. destruct (dict_contains column nd) eqn:Hc; [by apply IH |].
    destruct column as [s|z].
    + apply IH; [| done]. intros z. by rewrite dict_get_set_ne.
    + done.
Qed.
End AssignmentKeys.

(** X5: whether [_fit] raises while it assigns the families is decided by
    the labels alone.  When some column label is not a string and has no
    override of its own, [_fit] raises the [AttributeError] of [.replace]
    and leaves instance and store as they were.  When there is no such
    label, [_fit] replaces the model, and the new model is given a family
    for every column, a configured integer label included. *)
Theorem fit_integer_labels fit_numerics self data h :
  (existsb (unconfigured_label self) (columns data) = true ->
   _fit fit_numerics self data h =
     (self, h, Raise (AttributeError "'int' object has no attribute 'replace'"))) /\
  (existsb (unconfigured_label self) (columns data) = false ->
   exists model,
     _model (_fit fit_numerics self data h).1.1 = Some model /\
     forall column, column ∈ columns data ->
       dict_get column (distribution model) = Some (family_of self column)).
Proof.
  split; intros Hlabels.
  - unfold _fit. by rewrite (assign_columns_bad_label self _ _ (fun _ => eq_refl) Hlabels).
  - destruct (assign_columns_labels self (columns data) _ (assignment_inv_start self)
                (fun _ => eq_refl) Hlabels) as (a & Hok & [_ Hfam] & Hcov).
    destruct (fit_assigned fit_numerics self data h a Hok) as (model & Hmodel & Hdist).
    exists model. split; [done |]. intros column Hin. rewrite Hdist.
    destruct (Hcov column Hin) as [cls Hget]. rewrite Hget. f_equal. by apply Hfam.
Qed.

Lemma fit_integer_labels_witness :
  _fit toy_fit (configured no_metadata [(LInt 0, "norm")])
    {| columns := [LInt 0; LStr "age"; LInt 1]; rows := [[PyFloat 0]] |} [] =
  (configured no_metadata [(LInt 0, "norm")], [],
   Raise (AttributeError "'int' object has no attribute 'replace'")).
Proof.
  apply (proj1 (fit_integer_labels toy_fit (configured no_metadata [(LInt 0, "norm")])
                  {| columns := [LInt 0; LStr "age"; LInt 1]; rows := [[PyFloat 0]] |} [])).
  reflexivity.
Defined.

(** X6: the assignment that [_fit] gives the model holds every configured
    override as it is, for the fields that are no column of the frame too,
    and has no key that is neither a configured field nor a column; for a
    frame without columns it is the configured overrides. *)
Theorem fit_assignment_keys fit_numerics self data h :
  existsb (unconfigured_label self) (columns data) = false ->
  exists model,
    _model (_fit fit_numerics self data h).1.1 = Some model /\
    (forall field cls,
       dict_get field (_numerical_distributions self) = Some cls ->
       dict_get field (distribution model) = Some cls) /\
    (forall k,
       is_Some (dict_get k (distribution model)) ->
       is_Some (dict_get k (_numerical_distributions self)) \/ k ∈ columns data) /\
    (columns data = [] -> distribution model = _numerical_distributions self).
Proof.
  intros Hlabels.
  destruct (assign_columns_labels self (columns data) _ (assignment_inv_start self)
              (fun _ => eq_refl) Hlabels) as (a & Hok & _ & _).
  destruct (fit_assigned fit_numerics self data h a Hok) as (model & Hmodel & <-).
  destruct (assign_columns_extends self _ _ _ Hok) as (Hext & _ & Hkeys).
  exists model. split; [done |]. split; [done |]. split; [done |].
  intros Hempty. rewrite Hempty in Hok. simpl in Hok. by injection Hok as <-.
Qed.

Lemma fit_assignment_keys_witness :
  exists model,
    _model (_fit toy_fit (configured no_metadata [(LStr "fare", "gamma")])
              two_columns []).1.1 = Some model /\
    (forall field cls,
       dict_get field
         (_numerical_distributions (configured no_metadata [(LStr "fare", "gamma")])) =
         Some cls ->
       dict_get field (distribution model) = Some cls) /\
    (forall k,
       is_Some (dict_get k (distribution model)) ->
       is_Some (dict_get k
                  (_numerical_distributions
                     (configured no_metadata [(LStr "fare", "gamma")]))) \/
       k ∈ columns two_columns) /\
    (columns two_columns = [] ->
     distribution model =
       _numerical_distributions (configured no_metadata [(LStr "fare", "gamma")])).
Proof.
  apply (fit_assignment_keys toy_fit (configured no_metadata [(LStr "fare", "gamma")])
           two_columns []).
  reflexivity.
Defined.

(** The loop on the copy, which is the last object of the store, does what
    the loop on values does, and writes to the copy alone. *)
Lemma assign_columns_in_copy (self : GaussianCopulaSynthesizer) (self_nd : loc)
    (s : dicts) (cols : list label) : forall acc,
  s !! self_nd = Some (_numerical_distributions self) ->
  exists d,
    (assign_columns_in (_default_distribution self) self_nd (length s) cols
       (s ++ [acc])).1 = s ++ [d] /\
    match assign_columns self cols acc with
    | Ok a =>
        (assign_columns_in (_default_distribution self) self_nd (length s) cols
           (s ++ [acc])).2 = Ok tt /\ d = a
    | Raise e =>
        (assign_columns_in (_default_distribution self) self_nd (length s) cols
           (s ++ [acc])).2 = Raise e
    end.
Proof.
  intros acc Hself. revert acc.
  assert (forall acc, (s ++ [acc]) !! length s = Some acc) as Hcopy.
  { intros acc. by rewrite lookup_app_r, Nat.sub_diag by lia. }
  assert (forall acc, (s ++ [acc]) !! self_nd = Some (_numerical_distributions self))
    as Hown.
  { intros acc. rewrite lookup_app_l; [done |]. by eapply lookup_lt_Some. }
  induction cols as [|column cols IH]; intros acc; simpl.
  - by exists acc.
  - rewrite Hcopy. simpl.
    destruct (dict_contains column acc); [apply IH |].
    destruct column as [c|z]; [| by exists acc].
    unfold dicts_set. rewrite Hcopy, Hown. simpl.
    replace (<[length s := _]> (s ++ [acc]))
      with (s ++ [dict_set (LStr c)
                    (dict_get_default (LStr (str_replace ".value" "" c))
                       (_default_distribution self) (_numerical_distributions self))
                    acc]).
    + apply IH.
    + rewrite insert_app_r_alt, Nat.sub_diag by lia. done.
Qed.

(** X7: the [deepcopy] at the head of [_fit] keeps the loop away from the
    dictionary of the instance.  With the dictionaries as objects: whatever
    the columns and however the loop ends, every dictionary that was there
    before, [self._numerical_distributions] with it, holds what it held, and
    there is one new dictionary; when the loop ends normally that dictionary
    is the one handed to the model, and it holds the assignment. *)
Theorem fit_copy_protects_overrides (self : GaussianCopulaSynthesizer) (self_nd : loc)
    (cols : list label) (s : dicts) :
  s !! self_nd = Some (_numerical_distributions self) ->
  exists d,
    (fit_assignment (_default_distribution self) self_nd cols s).1 = s ++ [d] /\
    (fit_assignment (_default_distribution self) self_nd cols s).1 !! self_nd =
      Some (_numerical_distributions self) /\
    match assign_columns self cols (_numerical_distributions self) with
    | Ok a =>
        (fit_assignment (_default_distribution self) self_nd cols s).2 =
          Ok (length s) /\ d = a
    | Raise e =>
        (fit_assignment (_default_distribution self) self_nd cols s).2 = Raise e
    end.
Proof.
  intros Hself. unfold fit_assignment, deepcopy_dict. rewrite Hself.
  destruct (assign_columns_in_copy self self_nd s cols (_numerical_distributions self)
              Hself) as (d & Hstore & Hresult).
  destruct (assign_columns_in (_default_distribution self) self_nd (length s) cols
              (s ++ [_numerical_distributions self])) as [s2 r].
  simpl in *. subst s2. exists d. split; [done |]. split.
  - rewrite lookup_app_l; [done |]. by eapply lookup_lt_Some.
  - destruct (assign_columns self cols (_numerical_distributions self)) as [a|e].
    + destruct Hresult as [-> ->]. done.
    + by rewrite Hresult.
Qed.

Lemma fit_copy_protects_overrides_witness :
  exists d,
    (fit_assignment BetaUnivariate 0 [LStr "age"; LStr "fare.value"]
       [[(LStr "fare", GammaUnivariate)]]).1 =
      [[(LStr "fare", GammaUnivariate)]] ++ [d] /\
    (fit_assignment BetaUnivariate 0 [LStr "age"; LStr "fare.value"]
       [[(LStr "fare", GammaUnivariate)]]).1 !! 0 =
      Some [(LStr "fare", GammaUnivariate)] /\
    (fit_assignment BetaUnivariate 0 [LStr "age"; LStr "fare.value"]
       [[(LStr "fare", GammaUnivariate)]]).2 = Ok 1 /\
    d = [(LStr "fare", GammaUnivariate); (LStr "age", BetaUnivariate);
         (LStr "fare.value", GammaUnivariate)].
Proof.
  apply (fit_copy_protects_overrides (configured no_metadata [(LStr "fare", "gamma")])
           0 [LStr "age"; LStr "fare.value"] [[(LStr "fare", GammaUnivariate)]]).
  reflexivity.
Defined.

(** The loop run on the dictionary of the instance itself, as it would be
    without the copy, writes the columns into that dictionary. *)
Remark loop_without_copy_writes_overrides :
  (assign_columns_in BetaUnivariate 0 0 [LStr "age"; LStr "fare.value"]
     [[(LStr "fare", GammaUnivariate)]]).1 !! 0 =
  Some [(LStr "fare", GammaUnivariate); (LStr "age", BetaUnivariate);
        (LStr "fare.value", GammaUnivariate)].
Proof. reflexivity. Qed.

Lemma str_replace_no_dot (s : string) :
  Forall (fun c => c <> "."%char) (list_ascii_of_string s) ->
  str_replace ".value" "" s = s.
Proof.
  unfold str_replace. induction s as [|c s IH]; intros Hdots; [done |].
  simpl in Hdots. apply Forall_cons in Hdots as [Hc Hdots].
  rewrite replace_from_cons.
  change ".value" with (String "."%char "value") at 1.
  rewrite prefix_cons_ne by done. by rewrite IH.
Qed.

(** X8: a column whose name has no dot is given its own override or the
    default family, never the override of another field. *)
Theorem fit_column_without_dot fit_numerics self data h s :
  existsb (unconfigured_label self) (columns data) = false ->
  LStr s ∈ columns data ->
  Forall (fun c => c <> "."%char) (list_ascii_of_string s) ->
  exists model,
    _model (_fit fit_numerics self data h).1.1 = Some model /\
    dict_get (LStr s) (distribution model) =
      Some (dict_get_default (LStr s) (_default_distribution self)
              (_numerical_distributions self)).
Proof.
  intros Hlabels Hin Hdots.
  destruct (assign_columns_labels self (columns data) _ (assignment_inv_start self)
              (fun _ => eq_refl) Hlabels) as (a & Hok & [_ Hfam] & Hcov).
  destruct (fit_assigned fit_numerics self data h a Hok) as (model & Hmodel & <-).
  exists model. split; [done |].
  destruct (Hcov _ Hin) as [cls Hget]. rewrite Hget. f_equal.
  rewrite (Hfam _ _ Hget). unfold family_of, dict_get_default.
  rewrite (str_replace_no_dot s Hdots).
  by destruct (dict_get (LStr s) (_numerical_distributions self)).
Qed.

Lemma fit_column_without_dot_witness :
  exists model,
    _model (_fit toy_fit (configured no_metadata [(LStr "fare", "gamma")])
              two_columns []).1.1 = Some model /\
    dict_get (LStr "age") (distribution model) =
      Some (dict_get_default (LStr "age")
              (_default_distribution (configured no_metadata [(LStr "fare", "gamma")]))
              (_numerical_distributions (configured no_metadata [(LStr "fare", "gamma")]))).
Proof.
  apply (fit_column_without_dot toy_fit (configured no_metadata [(LStr "fare", "gamma")])
           two_columns [] "age").
  - reflexivity.
  - apply list_elem_of_here.
  - simpl. repeat (apply List.Forall_cons; [discriminate |]). apply List.Forall_nil.
Defined.

(** ** [_warn_for_update_transformers] *)

(** The hook goes through the entries it can look up. *)
Lemma warn_through_described self pre : forall rest warnings,
  (forall entry, entry ∈ pre -> described self entry.1) ->
  _warn_for_update_transformers self (pre ++ rest) warnings =
  _warn_for_update_transformers self rest
    (warnings ++ map (fun entry => one_hot_warning entry.1)
                   (List.filter (warns self) pre)).
Proof.
  induction pre as [|[column t] pre IH]; intros rest warnings Hdesc; simpl.
  - by rewrite app_nil_r.
  - destruct (Hdesc (column, t)) as (properties & sdtype & Hcol & Hsd);
      [apply list_elem_of_here |].
    simpl in Hcol. unfold warns at 1. simpl. rewrite Hcol, Hsd.
    destruct (eq_str sdtype "categorical" && isinstance_OneHotEncoder t); simpl.
    + rewrite IH by (intros entry Hin; by apply Hdesc, list_elem_of_further).
      by rewrite <- app_assoc.
    + apply IH. intros entry Hin. by apply Hdesc, list_elem_of_further.
Qed.

(** X9: the hook stops at the first entry it cannot look up.  After entries
    whose columns are described, an entry whose column is not in the
    metadata raises a [KeyError] for the column, and one whose column is
    there without an sdtype raises a [KeyError] for [sdtype]; the warnings
    of the entries before it have been issued, the entries after it are not
    looked at, and the instance is as it was. *)
Theorem warn_stops_at_first_unknown self pre column t post warnings :
  (forall entry, entry ∈ pre -> described self entry.1) ->
  (dict_get column (_columns (metadata self)) = None ->
   _warn_for_update_transformers self (pre ++ (column, t) :: post) warnings =
     (self,
      warnings ++ map (fun entry => one_hot_warning entry.1)
                    (List.filter (warns self) pre),
      Raise (KeyError column))) /\
  (forall properties,
     dict_get column (_columns (metadata self)) = Some properties ->
     dict_get "sdtype" properties = None ->
     _warn_for_update_transformers self (pre ++ (column, t) :: post) warnings =
       (self,
        warnings ++ map (fun entry => one_hot_warning entry.1)
                      (List.filter (warns self) pre),
        Raise (KeyError (LStr "sdtype")))).
Proof.
  intros Hdesc. split.
  - intros Hcol. rewrite warn_through_described by done. simpl. by rewrite Hcol.
  - intros properties Hcol Hsd. rewrite warn_through_described by done.
    simpl. by rewrite Hcol, Hsd.
Qed.

Lemma warn_stops_at_first_unknown_witness :
  _warn_for_update_transformers (configured shop_metadata [])
    ([(LStr "colour", TransformerInstance ["OneHotEncoder"; "BaseTransformer"])] ++
     (LStr "ghost", TransformerNone) ::
     [(LStr "size", TransformerInstance ["OneHotEncoder"; "BaseTransformer"])]) [] =
  (configured shop_metadata [],
   [] ++ map (fun entry => one_hot_warning entry.1)
           (List.filter (warns (configured shop_metadata []))
              [(LStr "colour", TransformerInstance ["OneHotEncoder"; "BaseTransformer"])]),
   Raise (KeyError (LStr "ghost"))).
Proof.
  refine (proj1 (warn_stops_at_first_unknown (configured shop_metadata [])
                   [(LStr "colour", TransformerInstance ["OneHotEncoder"; "BaseTransformer"])]
                   (LStr "ghost") TransformerNone
                   [(LStr "size", TransformerInstance ["OneHotEncoder"; "BaseTransformer"])]
                   [] _) _).
  - intros entry Hin. apply list_elem_of_singleton in Hin as ->.
    eexists _, _. split; reflexivity.
  - reflexivity.
Defined.

(** X10: whatever the mapping and however the call ends, the hook examines
    the entries up to the first one whose column is not described in the
    metadata, and no further.  It leaves the instance as it was, keeps the
    warnings issued before the call, and adds, in the order of the mapping,
    exactly one warning for each examined entry whose column is categorical
    and whose transformer is an instance of [OneHotEncoder], and no other.
    With every entry examined it returns normally; otherwise it raises a
    [KeyError], for the column or for [sdtype]. *)
Theorem warn_adds_only_one_hot_warnings self mapping : forall warnings,
  exists examined unexamined,
    mapping = examined ++ unexamined /\
    (forall entry, entry ∈ examined -> described self entry.1) /\
    (_warn_for_update_transformers self mapping warnings).1 =
      (self,
       warnings ++ map (fun entry => one_hot_warning entry.1)
                     (List.filter (warns self) examined)) /\
    match unexamined with
    | [] => (_warn_for_update_transformers self mapping warnings).2 = Ok tt
    | (column, _) :: _ =>
        (dict_get column (_columns (metadata self)) = None /\
         (_warn_for_update_transformers self mapping warnings).2 =
           Raise (KeyError column)) \/
        (exists properties,
           dict_get column (_columns (metadata self)) = Some properties /\
           dict_get "sdtype" properties = None /\
           (_warn_for_update_transformers self mapping warnings).2 =
             Raise (KeyError (LStr "sdtype")))
    end.
Proof.
  induction mapping as [|[column t] mapping IH]; intros warnings.
  - exists [], []. simpl. rewrite app_nil_r. split; [done |].
    split; [| done]. intros entry Hin. by apply elem_of_nil in Hin.
  - simpl.
    destruct (dict_get column (_columns (metadata self))) as [properties|] eqn:Hcol.
    2: { exists [], ((column, t) :: mapping). simpl. rewrite app_nil_r.
         split; [done |]. split; [| split; [done | by left]].
         intros entry Hin. by apply elem_of_nil in Hin. }
    destruct (dict_get "sdtype" properties) as [sdtype|] eqn:Hsd.
    2: { exists [], ((column, t) :: mapping). simpl. rewrite app_nil_r.
         split; [done |]. split; [| split; [done | right; by exists properties]].
         intros entry Hin. by apply elem_of_nil in Hin. }
    assert (described self column) as Hhere by by exists properties, sdtype.
    assert (warns self (column, t) =
            eq_str sdtype "categorical" && isinstance_OneHotEncoder t) as Hwarns.
    { unfold warns. simpl. by rewrite Hcol, Hsd. }
    destruct (eq_str sdtype "categorical" && isinstance_OneHotEncoder t) eqn:Hwarn.
    + destruct (IH (warnings ++ [one_hot_warning column]))
        as (examined & unexamined & -> & Hdesc & Hcall & Hend).
      exists ((column, t) :: examined), unexamined. split; [done |].
      split; [| split; [| done]].
      * intros entry Hin. apply elem_of_cons in Hin as [->|Hin]; [done |].
        by apply Hdesc.
      * rewrite Hcall. simpl. rewrite Hwarns. simpl. by rewrite <- app_assoc.
    + destruct (IH warnings) as (examined & unexamined & -> & Hdesc & Hcall & Hend).
      exists ((column, t) :: examined), unexamined. split; [done |].
      split; [| split; [| done]].
      * intros entry Hin. apply elem_of_cons in Hin as [->|Hin]; [done |].
        by apply Hdesc.
      * rewrite Hcall. simpl. by rewrite Hwarns.
Qed.

(** ** [get_learned_distributions] *)

Section ReportEntries.
Variable self : GaussianCopulaSynthesizer.

(** A name that is no column is left alone by the loop. *)
Lemma fold_report_keep (column : label) (cols : list label) :
  forall (params : list tree) acc,
    column ∉ cols ->
    dict_get column
      (fold_left (fun d ct => dict_set ct.1 (report_entry self ct.1 ct.2) d)
         (zip cols params) acc)
    = dict_get column acc.
Proof.
  induction cols as [|c cols IH]; intros [|t params] acc Hnotin; simpl; try done.
  apply not_elem_of_cons in Hnotin as [Hne Hnotin].
  rewrite IH by done. by rewrite dict_get_set_ne.
Qed.

(** A column that occurs once has the entry of its parameters. *)
Lemma fold_report_at (cols : list label) :
  forall (params : list tree) acc i column t,
    NoDup cols -> cols !! i = Some column -> params !! i = Some t ->
    dict_get column
      (fold_left (fun d ct => dict_set ct.1 (report_entry self ct.1 ct.2) d)
         (zip cols params) acc)
    = Some (report_entry self column t).
Proof.
  induction cols as [|c cols IH]; intros [|t0 params] acc i column t Hnd Hc Ht;
    try done.
  apply NoDup_cons in Hnd as [Hnotin Hnd]. destruct i as [|i]; simpl in *.
  - injection Hc as ->. injection Ht as ->.
    rewrite fold_report_keep by done. apply dict_get_set_eq.
  - by eapply IH.
Qed.
End ReportEntries.

(** X11: on a fitted instance whose model has no column twice, the entry of
    the report for a column holds the parameters the model has for that
    column, with their structure. *)
Theorem report_gives_model_parameters (self : GaussianCopulaSynthesizer) h model lu us :
  _fitted self = true -> _model self = Some model -> fitted model = true ->
  gm_univariates model = VRef lu -> h !! lu = Some (OList us) -> closed h ->
  NoDup (gm_columns model) ->
  exists r h',
    get_learned_distributions self h = (h', Ok r) /\
    forall i column u n,
      gm_columns model !! i = Some column -> us !! i = Some u ->
      tree_get column (unfold (S (S (S n))) h' r) =
        Some (TDict [(LStr "distribution", TAtom (reported_family self column));
                     (LStr "learned_parameters", unfold (S n) h u)]).
Proof.
  intros Hflag Hmodel Hfitted Huniv Hlu Hclosed Hnd.
  destruct (get_learned_distributions_spec self h model lu us)
    as (ld & ext & Hcall & _ & _ & Htree); try done.
  exists (VRef ld), (h ++ ext). split; [done |].
  intros i column u n Hcolumn Hu. rewrite Htree. unfold report_tree. simpl.
  apply (fold_report_at self _ _ _ i); [done | done |].
  change (map (unfold (S n) h) us) with (unfold (S n) h <$> us).
  by rewrite list_lookup_fmap, Hu.
Qed.

Lemma report_gives_model_parameters_witness :
  exists r h',
    get_learned_distributions fitted_example fitted_example_store = (h', Ok r) /\
    forall i column u n,
      [LStr "x.value"; LStr "y"] !! i = Some column ->
      [VRef 0; VRef 1] !! i = Some u ->
      tree_get column (unfold (S (S (S n))) h' r) =
        Some (TDict [(LStr "distribution", TAtom (reported_family fitted_example column));
                     (LStr "learned_parameters",
                      unfold (S n) fitted_example_store u)]).
Proof.
  apply (report_gives_model_parameters fitted_example fitted_example_store
           {| distribution := [(LStr "x", GaussianUnivariate);
                               (LStr "x.value", GaussianUnivariate);
                               (LStr "y", BetaUnivariate)];
              fitted := true;
              gm_columns := [LStr "x.value"; LStr "y"];
              gm_univariates := VRef 2 |} 2 [VRef 0; VRef 1]);
    try reflexivity.
  - apply closedb_closed. reflexivity.
  - apply NoDup_cons. split; [| apply NoDup_singleton].
    intros Hin. apply list_elem_of_singleton in Hin. discriminate.
Defined.

(** X12: the report of a fitted instance has no entry under a name that is
    not a column of the model. *)
Theorem report_has_no_other_entry (self : GaussianCopulaSynthesizer) h model lu us :
  _fitted self = true -> _model self = Some model -> fitted model = true ->
  gm_univariates model = VRef lu -> h !! lu = Some (OList us) -> closed h ->
  exists r h',
    get_learned_distributions self h = (h', Ok r) /\
    forall column n,
      column ∉ gm_columns model ->
      tree_get column (unfold (S (S (S n))) h' r) = None.
Proof.
  intros Hflag Hmodel Hfitted Huniv Hlu Hclosed.
  destruct (get_learned_distributions_spec self h model lu us)
    as (ld & ext & Hcall & _ & _ & Htree); try done.
  exists (VRef ld), (h ++ ext). split; [done |].
  intros column n Hnotin. rewrite Htree. unfold report_tree. simpl.
  by rewrite fold_report_keep.
Qed.

Lemma report_has_no_other_entry_witness :
  exists r h',
    get_learned_distributions fitted_example fitted_example_store = (h', Ok r) /\
    forall column n,
      column ∉ [LStr "x.value"; LStr "y"] ->
      tree_get column (unfold (S (S (S n))) h' r) = None.
Proof.
  apply (report_has_no_other_entry fitted_example fitted_example_store
           {| distribution := [(LStr "x", GaussianUnivariate);
                               (LStr "x.value", GaussianUnivariate);
                               (LStr "y", BetaUnivariate)];
              fitted := true;
              gm_columns := [LStr "x.value"; LStr "y"];
              gm_univariates := VRef 2 |} 2 [VRef 0; VRef 1]);
    try reflexivity.
  apply closedb_closed. reflexivity.
Defined.

(** X13: the configuration that [__init__] accepts is kept by [_fit], and
    under it the family reported for any column is one of the six family
    names. *)
Theorem reported_family_is_a_family_name md emm er nd dd fit_numerics self :
  (forall self0, __init__ md emm er nd dd = Ok self0 -> well_configured self0) /\
  (forall data h,
     well_configured self -> well_configured (_fit fit_numerics self data h).1.1) /\
  (forall column,
     well_configured self ->
     exists name, reported_family self column = PyStr name /\ name ∈ family_names).
Proof.
  split; [| split].
  - intros self0 Hok.
    apply init_Ok_inv in Hok as (_ & _ & Hdd & Hnd & Hdefault & Hfields & _).
    split.
    + rewrite Hdd. by eexists.
    + intros field d Hin. rewrite Hnd in Hin. by eapply validate_fields_Ok_inv.
  - intros data h [Hdefault Hfields].
    assert (exists m, (_fit fit_numerics self data h).1.1 = set_model self m) as [m ->].
    { unfold _fit.
      destruct (assign_columns self (columns data) (_numerical_distributions self))
        as [a|e]; simpl.
      - destruct (GaussianMultivariate_fit fit_numerics (GaussianMultivariate_new a) data h)
          as [[model' h'] r]. by eexists.
      - exists (_model self). by destruct self. }
    by split.
  - intros column [Hdefault Hfields].
    assert (acceptable (reported_family self column)) as (cls & Hcls).
    { unfold reported_family, dict_get_default.
      destruct (dict_get column (numerical_distributions self)) as [d|] eqn:Hget;
        [| done].
      by eapply Hfields, dict_get_In. }
    apply validate_Ok_inv in Hcls as (name & -> & Hname).
    exists name. split; [done |]. by eapply recognized_names.
Qed.

Lemma reported_family_is_a_family_name_witness :
  exists name,
    reported_family fitted_example (LStr "x.value") = PyStr name /\
    name ∈ family_names.
Proof.
  apply (proj2 (proj2 (reported_family_is_a_family_name no_metadata true true
                         (AObj PyNone) PyNone toy_fit fitted_example))).
  split; [by exists BetaUnivariate |].
  intros field d Hin. apply list_elem_of_singleton in Hin. injection Hin as -> ->.
  by exists GaussianUnivariate.
Defined.

(** The keys of the report, in order: the columns that have parameters. *)
Lemma fold_report_keys (self : GaussianCopulaSynthesizer) (cols : list label) :
  forall (params : list tree) acc,
    NoDup (dict_keys acc ++ cols) ->
    dict_keys
      (fold_left (fun d ct => dict_set ct.1 (report_entry self ct.1 ct.2) d)
         (zip cols params) acc)
    = dict_keys acc ++ take (length params) cols.
Proof.
  induction cols as [|c cols IH]; intros [|t params] acc Hnd; simpl;
    try by rewrite app_nil_r.
  assert (c ∉ dict_keys acc) as Hnew.
  { apply NoDup_app in Hnd as (_ & Hdisj & _). intros Hin.
    apply (Hdisj c Hin). apply list_elem_of_here. }
  rewrite IH; rewrite dict_keys_set_new by done.
  - by rewrite <- app_assoc.
  - by rewrite <- app_assoc.
Qed.

(** X14: on a fitted instance whose model has no column twice, the keys of
    the report are, in the order of the model's columns, the columns that
    have parameters: [zip] stops at the shorter of the two. *)
Theorem report_keys_follow_columns (self : GaussianCopulaSynthesizer) h model lu us :
  _fitted self = true -> _model self = Some model -> fitted model = true ->
  gm_univariates model = VRef lu -> h !! lu = Some (OList us) -> closed h ->
  NoDup (gm_columns model) ->
  exists r h',
    get_learned_distributions self h = (h', Ok r) /\
    forall n, exists items,
      unfold (S (S (S n))) h' r = TDict items /\
      dict_keys items = take (length us) (gm_columns model).
Proof.
  intros Hflag Hmodel Hfitted Huniv Hlu Hclosed Hnd.
  destruct (get_learned_distributions_spec self h model lu us)
    as (ld & ext & Hcall & _ & _ & Htree); try done.
  exists (VRef ld), (h ++ ext). split; [done |].
  intros n. eexists. split; [apply Htree |].
  rewrite fold_report_keys by done. simpl. by rewrite length_map.
Qed.

Lemma report_keys_follow_columns_witness :
  exists r h',
    get_learned_distributions fitted_example fitted_example_store = (h', Ok r) /\
    forall n, exists items,
      unfold (S (S (S n))) h' r = TDict items /\
      dict_keys items = take 2 [LStr "x.value"; LStr "y"].
Proof.
  apply (report_keys_follow_columns fitted_example fitted_example_store
           {| distribution := [(LStr "x", GaussianUnivariate);
                               (LStr "x.value", GaussianUnivariate);
                               (LStr "y", BetaUnivariate)];
              fitted := true;
              gm_columns := [LStr "x.value"; LStr "y"];
              gm_univariates := VRef 2 |} 2 [VRef 0; VRef 1]);
    try reflexivity.
  - apply closedb_closed. reflexivity.
  - apply NoDup_cons. split; [| apply NoDup_singleton].
    intros Hin. apply list_elem_of_singleton in Hin. discriminate.
Defined.

(** X15: whatever the outcome, [get_learned_distributions] leaves every
    object that existed before the call as it was: the store after the call
    is the store before it, followed by new objects. *)
Theorem report_keeps_existing_objects (self : GaussianCopulaSynthesizer) h :
  closed h ->
  (forall model, _model self = Some model ->
     val_in 0 (length h) (gm_univariates model)) ->
  exists ext, (get_learned_distributions self h).1 = h ++ ext.
Proof.
  intros Hclosed Hroot. unfold get_learned_distributions.
  destruct (negb (_fitted self)); [exists []; by rewrite app_nil_r |].
  destruct (_model self) as [model|] eqn:Hmodel; [| exists []; by rewrite app_nil_r].
  unfold GaussianMultivariate_to_dict.
  destruct (fitted model); [| exists []; by rewrite app_nil_r].
  destruct (deepcopy_spec h (gm_univariates model) Hclosed (Hroot _ eq_refl))
    as (v' & h1 & m & -> & [ext ->] & _).
  destruct (py_iter (h ++ ext) v') as [items|e]; simpl; [| by exists ext].
  rewrite <- app_assoc. apply report_columns_prefix. rewrite length_app. lia.
Qed.

Lemma report_keeps_existing_objects_witness :
  exists ext,
    (get_learned_distributions fitted_example fitted_example_store).1 =
    fitted_example_store ++ ext.
Proof.
  apply report_keeps_existing_objects.
  - apply closedb_closed. reflexivity.
  - intros model Hmodel. injection Hmodel as <-. simpl. lia.
Defined.

(** X16: on a closed store in which the parameters of a fitted model are a
    list, [get_learned_distributions] returns a report exactly when the
    instance is marked fitted and holds a fitted model; otherwise it raises
    its ValueError, the AttributeError of a missing model or the library's
    NotFittedError, and the store is the one before the call. *)
Theorem report_succeeds_iff (self : GaussianCopulaSynthesizer) h :
  closed h ->
  (forall model, _model self = Some model -> fitted model = true ->
     exists lu us, gm_univariates model = VRef lu /\ h !! lu = Some (OList us)) ->
  ((exists r, (get_learned_distributions self h).2 = Ok r) <->
   _fitted self = true /\
   exists model, _model self = Some model /\ fitted model = true) /\
  (forall e, (get_learned_distributions self h).2 = Raise e ->
     (get_learned_distributions self h).1 = h /\
     (e = ValueError (Text not_learned_yet) \/
      e = AttributeError "'NoneType' object has no attribute 'to_dict'" \/
      e = NotFittedError)).
Proof.
  intros Hclosed Hlist.
  destruct (_fitted self) eqn:Hflag; cycle 1.
  { unfold get_learned_distributions. rewrite Hflag. simpl. split.
    - split; [by intros [r Hr] | by intros [? _]].
    - intros e [= <-]. auto. }
  destruct (_model self) as [model|] eqn:Hmodel; cycle 1.
  { unfold get_learned_distributions. rewrite Hflag, Hmodel. simpl. split.
    - split; [by intros [r Hr] | by intros (_ & ? & ? & _)].
    - intros e [= <-]. auto. }
  destruct (fitted model) eqn:Hfitted; cycle 1.
  { unfold get_learned_distributions, GaussianMultivariate_to_dict.
    rewrite Hflag, Hmodel, Hfitted. simpl. split.
    - split; [by intros [r Hr] |].
      intros (_ & model' & [= <-] & Hf). congruence.
    - intros e [= <-]. auto. }
  destruct (Hlist model eq_refl Hfitted) as (lu & us & Huniv & Hlu).
  destruct (get_learned_distributions_spec self h model lu us)
    as (ld & ext & -> & _); try done.
  simpl. split.
  - split; [| by eexists]. intros _. split; [done |]. by exists model.
  - by intros e.
Qed.

Lemma report_succeeds_iff_witness :
  ((exists r,
      (get_learned_distributions fitted_example fitted_example_store).2 = Ok r) <->
   _fitted fitted_example = true /\
   exists model, _model fitted_example = Some model /\ fitted model = true) /\
  (forall e,
     (get_learned_distributions fitted_example fitted_example_store).2 = Raise e ->
     (get_learned_distributions fitted_example fitted_example_store).1 =
       fitted_example_store /\
     (e = ValueError (Text not_learned_yet) \/
      e = AttributeError "'NoneType' object has no attribute 'to_dict'" \/
      e = NotFittedError)).
Proof.
  apply report_succeeds_iff.
  - apply closedb_closed. reflexivity.
  - intros model Hmodel _. injection Hmodel as <-.
    exists 2, [VRef 0; VRef 1]. split; reflexivity.
Defined.

(** ** [_fit] followed by the other methods *)

(** X17: a fit on an instance that is marked fitted, when the library
    returns its columns and a list of parameters in a closed store, succeeds,
    and the report that follows describes the library's new columns and
    parameters, with the instance's configured family names. *)
Theorem refit_report_describes_new_model fit_numerics
    (self : GaussianCopulaSynthesizer) data h assignment cols lu us h' :
  _fitted self = true ->
  assign_columns self (columns data) (_numerical_distributions self) = Ok assignment ->
  fit_numerics assignment data h = inr (cols, VRef lu, h') ->
  closed h' -> h' !! lu = Some (OList us) ->
  (_fit fit_numerics self data h).2 = Ok tt /\
  (_fit fit_numerics self data h).1.2 = h' /\
  exists ld ext,
    get_learned_distributions (_fit fit_numerics self data h).1.1 h'
      = (h' ++ ext, Ok (VRef ld)) /\
    forall n,
      unfold (S (S (S n))) (h' ++ ext) (VRef ld) =
      report_tree self cols (map (unfold (S n) h') us).
Proof.
  intros Hflag Hassign Hfit Hclosed Hlu.
  unfold _fit, GaussianMultivariate_fit. rewrite Hassign. simpl. rewrite Hfit.
  simpl. split; [done |]. split; [done |].
  destruct (get_learned_distributions_spec
              (set_model self
                 (Some {| distribution := assignment; fitted := true;
                          gm_columns := cols; gm_univariates := VRef lu |}))
              h' _ lu us Hflag eq_refl eq_refl eq_refl Hlu Hclosed)
    as (ld & ext & Hcall & _ & _ & Htree).
  exists ld, ext. split; [done |]. intros n. apply Htree.
Qed.

Lemma refit_report_describes_new_model_witness :
  (_fit toy_fit fitted_example x_value_frame fitted_example_store).2 = Ok tt /\
  (_fit toy_fit fitted_example x_value_frame fitted_example_store).1.2 =
    (fitted_example_store ++ [toy_parameters; toy_parameters])
      ++ [OList [VRef 3; VRef 4]] /\
  exists ld ext,
    get_learned_distributions
      (_fit toy_fit fitted_example x_value_frame fitted_example_store).1.1
      ((fitted_example_store ++ [toy_parameters; toy_parameters])
         ++ [OList [VRef 3; VRef 4]])
      = (((fitted_example_store ++ [toy_parameters; toy_parameters])
            ++ [OList [VRef 3; VRef 4]]) ++ ext, Ok (VRef ld)) /\
    forall n,
      unfold (S (S (S n)))
        (((fitted_example_store ++ [toy_parameters; toy_parameters])
            ++ [OList [VRef 3; VRef 4]]) ++ ext) (VRef ld) =
      report_tree fitted_example [LStr "x.value"; LStr "y"]
        (map (unfold (S n)
                ((fitted_example_store ++ [toy_parameters; toy_parameters])
                   ++ [OList [VRef 3; VRef 4]]))
           [VRef 3; VRef 4]).
Proof.
  apply (refit_report_describes_new_model toy_fit fitted_example x_value_frame
           fitted_example_store
           [(LStr "x", GaussianUnivariate); (LStr "x.value", GaussianUnivariate);
            (LStr "y", BetaUnivariate)]
           [LStr "x.value"; LStr "y"] 5 [VRef 3; VRef 4]);
    try reflexivity.
  apply closedb_closed. reflexivity.
Defined.



(** After the caller has put [gamma] under [y] in the dictionary it passed,
    the report names [gamma] for the column [y], which [_fit] gives the
    class of the default. *)
Remark written_dictionary_is_reported :
  reported_family
    (_fit toy_fit
       (write_numerical_distributions (configured no_metadata [(LStr "x", "norm")])
          [(LStr "x", PyStr "norm"); (LStr "y", PyStr "gamma")])
       x_value_frame []).1.1 (LStr "y") = PyStr "gamma" /\
  exists model,
    _model (_fit toy_fit
              (write_numerical_distributions
                 (configured no_metadata [(LStr "x", "norm")])
                 [(LStr "x", PyStr "norm"); (LStr "y", PyStr "gamma")])
              x_value_frame []).1.1 = Some model /\
    dict_get (LStr "y") (distribution model) = Some BetaUnivariate.
Proof.
  split; [reflexivity |]. eexists. split; reflexivity.
Qed.

(** X19: after a [_fit] that succeeded, [_sample] is the library's sampling
    on the model that fit has just built, in the store the fit left: it
    raises neither the AttributeError of a missing model nor the library's
    NotFittedError of its own accord. *)
Theorem sample_after_fit fit_numerics sample_numerics
    (self : GaussianCopulaSynthesizer) data h num_rows conditions :
  (_fit fit_numerics self data h).2 = Ok tt ->
  exists model,
    _model (_fit fit_numerics self data h).1.1 = Some model /\
    fitted model = true /\
    assign_columns self (columns data) (_numerical_distributions self)
      = Ok (distribution model) /\
    _sample sample_numerics (_fit fit_numerics self data h).1.1
      (_fit fit_numerics self data h).1.2 num_rows conditions
    = sample_numerics model (_fit fit_numerics self data h).1.2 num_rows conditions.
Proof.
  unfold _fit, GaussianMultivariate_fit.
  destruct (assign_columns self (columns data) (_numerical_distributions self))
    as [assignment|e]; simpl; [| done].
  destruct (fit_numerics assignment data h) as [e|[[cols univariates] h']];
    simpl; [done |].
  intros _. eexists. split; [reflexivity |]. done.
Qed.

Lemma sample_after_fit_witness :
  exists model,
    _model (_fit toy_fit (configured no_metadata []) two_columns []).1.1
      = Some model /\
    fitted model = true /\
    assign_columns (configured no_metadata []) (columns two_columns)
      (_numerical_distributions (configured no_metadata []))
      = Ok (distribution model) /\
    _sample toy_sample (_fit toy_fit (configured no_metadata []) two_columns []).1.1
      (_fit toy_fit (configured no_metadata []) two_columns []).1.2 10 None
    = toy_sample model (_fit toy_fit (configured no_metadata []) two_columns []).1.2
        10 None.
Proof.
  apply (sample_after_fit toy_fit toy_sample (configured no_metadata [])
           two_columns [] 10%Z None).
  reflexivity.
Defined.
